(** * SIMCITY simulation core: a shallow embedding of [src/App.tsx]

    The development embeds the simulation engine of the settlement game
    (the first revision of [src/App.tsx], the one with upgrades, ports and
    exploration, together with the matching revision of
    [src/constants.tsx], the one with [GRID_SIZE = 20]) and proves
    properties of the click handler, the economy ticker, the hostile agents
    and the explorer agents.

    Modelling conventions.

    - JavaScript numbers.  Grid coordinates, building levels, hit points,
      cooldowns and the ledger counters only ever hold integers in the
      program (they start as integers and every update adds, subtracts or
      floors), so they are [Z].  Land values, agent positions and random
      draws are fractional; they are exact rationals [Q], so the rounding
      error of IEEE doubles is outside the model.
    - React state.  Every [setX (prev => ...)] updater is applied at once,
      in program order, and the [xRef.current] mirrors always hold the
      current state.  A handler is therefore a function [Sim -> Sim].
    - [Math.random()] and [Date.now()] are inputs of the functions that
      call them.
    - The goal tracker and the news oracle ([generateCityGoal],
      [generateNewsEvent]) live outside [src/App.tsx] and are not
      modelled; the local news feed is. *)

From Stdlib Require Import ZArith QArith Qround Qabs Qminmax Qpower Lia.
From stdpp Require Import base decidable option list countable gmap strings.

#[local] Open Scope Z_scope.

(** ** [src/types.ts] *)

Inductive BuildingType :=
| BNone | Road | Residential | Commercial | Industrial | Park | Farm
| Defense | Port.

Inductive Era := Primitive | IndustrialEra | Modern | Future.

Inductive Weather := Sunny | Rain | Snow.

Inductive ResourceType := RNone | Water | Forest | Stone.

#[global] Instance BuildingType_eq_dec : EqDecision BuildingType.
Proof. solve_decision. Defined.

#[global] Instance Era_eq_dec : EqDecision Era.
Proof. solve_decision. Defined.

#[global] Instance Weather_eq_dec : EqDecision Weather.
Proof. solve_decision. Defined.

#[global] Instance ResourceType_eq_dec : EqDecision ResourceType.
Proof. solve_decision. Defined.

Definition BuildingType_to_nat (b : BuildingType) : nat :=
  match b with
  | BNone => 0 | Road => 1 | Residential => 2 | Commercial => 3
  | Industrial => 4 | Park => 5 | Farm => 6 | Defense => 7 | Port => 8
  end%nat.

Definition BuildingType_of_nat (n : nat) : BuildingType :=
  match n with
  | 0 => BNone | 1 => Road | 2 => Residential | 3 => Commercial
  | 4 => Industrial | 5 => Park | 6 => Farm | 7 => Defense | _ => Port
  end%nat.

#[global] Program Instance BuildingType_countable : Countable BuildingType :=
  inj_countable' BuildingType_to_nat BuildingType_of_nat _.
Next Obligation. by intros []. Qed.

(** [BuildingConfig]; [description] and [color] only feed the renderer. *)
Record BuildingConfig := mkConfig {
  costMoney : Z;
  costWood : Z;
  costStone : Z;
  name : string;
  popGen : Z;
  incomeGen : Z
}.

(** [TileData].  The fields [level] and [explored] are the ones the first
    revision of [createInitialGrid] writes. *)
Module TileData.
Record t := mk {
  x : Z;
  y : Z;
  buildingType : BuildingType;
  resourceType : ResourceType;
  landValue : Q;
  variant : Q;
  level : Z;
  explored : bool
}.
End TileData.

Abbreviation Grid := (list (list TileData.t)).

Module CityStats.
Record t := mk {
  money : Z;
  wood : Z;
  stone : Z;
  food : Z;
  population : Z;
  day : Z;
  era : Era;
  weather : Weather
}.
End CityStats.

Module Enemy.
Record t := mk {
  id : string;
  x : Q;
  y : Q;
  hp : Z;
  maxHp : Z;
  attackCooldown : Z
}.
End Enemy.

Inductive BoatState := idle | exploring.

(** [Boat], as [handleTileClick] creates it and the boat ticker updates
    it: the target is absent until the first tick. *)
Module Boat.
Record t := mk {
  id : string;
  x : Q;
  y : Q;
  targetX : option Z;
  targetY : option Z;
  state : BoatState
}.
End Boat.

(** The texts pushed to the news feed; the [id] of a [NewsItem] is a
    wall-clock stamp and is left out. *)
Inductive NewsItem :=
| NewsEraAdvance (e : Era)
| NewsFoodShortage
| NewsHostilesDetected
| NewsExpedition
| NewsMaxLevel
| NewsUpgraded (b : BuildingType) (lvl : Z)
| NewsUpgradeCosts (m w s : Z)
| NewsWaterOnly
| NewsPortOnWater
| NewsInsufficient (b : BuildingType).

(** The whole simulation state held by the [App] component. *)
Record Sim := mkSim {
  gameStarted : bool;
  grid : Grid;
  stats : CityStats.t;
  enemies : list Enemy.t;
  boats : list Boat.t;
  newsFeed : list NewsItem
}.

(** ** [src/constants.tsx] *)

Definition GRID_SIZE : Z := 20.

Definition UPGRADE_MULTIPLIER : Q := 1.5%Q.

Definition INITIAL_STATS : CityStats.t :=
  CityStats.mk 1500 100 50 200 0 1 Primitive Sunny.

(** [ERA_THRESHOLDS[e]] as the pair (pop, money). *)
Definition ERA_THRESHOLDS (e : Era) : Z * Z :=
  match e with
  | Primitive => (0, 0)
  | IndustrialEra => (50, 3000)
  | Modern => (300, 15000)
  | Future => (1000, 60000)
  end.

Definition BUILDINGS (b : BuildingType) : BuildingConfig :=
  match b with
  | BNone => mkConfig 0 0 0 "Bulldoze" 0 0
  | Road => mkConfig 5 0 0 "Road" 0 0
  | Residential => mkConfig 50 10 0 "Housing" 5 5
  | Commercial => mkConfig 100 20 5 "Business" 0 25
  | Industrial => mkConfig 200 30 10 "Industry" 0 10
  | Farm => mkConfig 30 5 0 "Farm" 0 5
  | Defense => mkConfig 150 20 40 "Defense" 0 (-5)
  | Park => mkConfig 50 10 5 "Park" 1 0
  | Port => mkConfig 300 50 20 "Port" 2 10
  end.

(** ** Numbers *)

Definition Qlt_bool (a b : Q) : bool := negb (Qle_bool b a).

(** [Math.sign] on a rational. *)
Definition Qsign (q : Q) : Q := inject_Z (Z.sgn (Qnum q)).

(** [Math.round]: halves go up. *)
Definition Qround (q : Q) : Z := Qfloor (q + 0.5)%Q.

(** ** Grid access *)

Definition inBounds (x y : Z) : bool :=
  (0 <=? x) && (x <? GRID_SIZE) && (0 <=? y) && (y <? GRID_SIZE).

(** [grid[y][x]].  The program only indexes after a bounds check against
    [GRID_SIZE]; on a grid that is smaller than that the JavaScript would
    throw, here the lookup is [None]. *)
Definition lookupTile (g : Grid) (x y : Z) : option TileData.t :=
  if (0 <=? x) && (0 <=? y)
  then g !! Z.to_nat y ≫= λ row, row !! Z.to_nat x
  else None.

(** [grid[y][x] = f (grid[y][x])] on a copy of the rows. *)
Definition alterTile (f : TileData.t → TileData.t) (x y : Z) (g : Grid) : Grid :=
  if (0 <=? x) && (0 <=? y)
  then alter (alter f (Z.to_nat x)) (Z.to_nat y) g
  else g.

Definition setTile (t : TileData.t) (x y : Z) (g : Grid) : Grid :=
  alterTile (λ _, t) x y g.

Definition wf_grid (g : Grid) : Prop :=
  length g = Z.to_nat GRID_SIZE ∧
  Forall (λ row, length row = Z.to_nat GRID_SIZE) g.

Definition with_landValue (v : Q) (t : TileData.t) : TileData.t :=
  TileData.mk (TileData.x t) (TileData.y t) (TileData.buildingType t)
    (TileData.resourceType t) v (TileData.variant t) (TileData.level t)
    (TileData.explored t).

Definition with_level (l : Z) (t : TileData.t) : TileData.t :=
  TileData.mk (TileData.x t) (TileData.y t) (TileData.buildingType t)
    (TileData.resourceType t) (TileData.landValue t) (TileData.variant t) l
    (TileData.explored t).

Definition with_building (b : BuildingType) (l : Z) (t : TileData.t) : TileData.t :=
  TileData.mk (TileData.x t) (TileData.y t) b
    (TileData.resourceType t) (TileData.landValue t) (TileData.variant t) l
    (TileData.explored t).

Definition with_explored (e : bool) (t : TileData.t) : TileData.t :=
  TileData.mk (TileData.x t) (TileData.y t) (TileData.buildingType t)
    (TileData.resourceType t) (TileData.landValue t) (TileData.variant t)
    (TileData.level t) e.

(** ** [calculateLandValue] *)

Definition neighbors : list (Z * Z) :=
  [(-1,0); (1,0); (0,-1); (0,1); (-1,-1); (-1,1); (1,-1); (1,1)].

(** The body of the [forEach] callback for one in-bounds neighbour tile:
    six independent [if]s on the running [value]. *)
Definition landValueTile (tile : TileData.t) (value : Q) : Q :=
  let value :=
    if bool_decide (TileData.resourceType tile = Water)
    then (value + 0.1)%Q else value in
  let value :=
    if bool_decide (TileData.resourceType tile = Forest)
    then (value + 0.05)%Q else value in
  let value :=
    if bool_decide (TileData.buildingType tile = Park)
    then (value + 0.2)%Q else value in
  let value :=
    if bool_decide (TileData.buildingType tile = Industrial)
    then (value - 0.15)%Q else value in
  let value :=
    if bool_decide (TileData.buildingType tile = Defense)
    then (value + 0.05)%Q else value in
  if 1 <? TileData.level tile
  then (value + 0.1 * inject_Z (TileData.level tile - 1))%Q
  else value.

Definition landValueStep (g : Grid) (x y : Z) (value : Q) (d : Z * Z) : Q :=
  let nx := x + d.1 in
  let ny := y + d.2 in
  if inBounds nx ny then
    match lookupTile g nx ny with
    | Some tile => landValueTile tile value
    | None => value
    end
  else value.

Definition calculateLandValue (g : Grid) (x y : Z) : Q :=
  let value := fold_left (landValueStep g x y) neighbors 1.0%Q in
  Qmax 0.5%Q (Qmin 2.5%Q value).

(** ** The news feed *)

(** [addNewsItem]: [[...prev.slice(-12), item]]. *)
Definition addNewsItem (item : NewsItem) (feed : list NewsItem) : list NewsItem :=
  drop (length feed - 12) feed ++ [item].

Definition pushNews (item : NewsItem) (s : Sim) : Sim :=
  mkSim (gameStarted s) (grid s) (stats s) (enemies s) (boats s)
    (addNewsItem item (newsFeed s)).

(** ** [handleTileClick] *)

(** [{...prev, money: prev.money - m, wood: prev.wood - w, stone: prev.stone - st}] *)
Definition debit (m w st : Z) (prev : CityStats.t) : CityStats.t :=
  CityStats.mk (CityStats.money prev - m) (CityStats.wood prev - w)
    (CityStats.stone prev - st) (CityStats.food prev)
    (CityStats.population prev) (CityStats.day prev) (CityStats.era prev)
    (CityStats.weather prev).

(** [{...prev, wood: prev.wood + w}] *)
Definition addWood (w : Z) (prev : CityStats.t) : CityStats.t :=
  debit 0 (- w) 0 prev.

(** [{...prev, stone: prev.stone + st}] *)
Definition addStone (st : Z) (prev : CityStats.t) : CityStats.t :=
  debit 0 0 (- st) prev.

(** [{...prev, money: prev.money + m}] *)
Definition addMoney (m : Z) (prev : CityStats.t) : CityStats.t :=
  debit (- m) 0 0 prev.

(** The three comparisons that guard every debit. *)
Definition canAfford (st : CityStats.t) (m w s : Z) : bool :=
  (m <=? CityStats.money st) && (w <=? CityStats.wood st)
  && (s <=? CityStats.stone st).

(** [Math.floor(cost * Math.pow(UPGRADE_MULTIPLIER, level))] *)
Definition upgradeCost (cost level : Z) : Z :=
  let multiplier := Qpower UPGRADE_MULTIPLIER level in
  Qfloor (inject_Z cost * multiplier).

(** One iteration of the land value loops of the click handler:
    [newGrid[ny][nx].landValue = calculateLandValue(newGrid, nx, ny)]. *)
Definition recomputeStep (x y : Z) (newGrid : Grid) (d : Z * Z) : Grid :=
  let nx := x + d.1 in
  let ny := y + d.2 in
  if inBounds nx ny
  then alterTile (with_landValue (calculateLandValue newGrid nx ny)) nx ny newGrid
  else newGrid.

Definition recomputeLandValues (range : list (Z * Z)) (x y : Z) (newGrid : Grid) : Grid :=
  fold_left (recomputeStep x y) range newGrid.

Definition buildRange : list (Z * Z) :=
  [(-1,0); (1,0); (0,-1); (0,1); (0,0); (-1,-1); (-1,1); (1,-1); (1,1)].

Definition demolishRange : list (Z * Z) :=
  [(-1,0); (1,0); (0,-1); (0,1); (0,0)].

Definition withGridStats (g : Grid) (st : CityStats.t) (s : Sim) : Sim :=
  mkSim (gameStarted s) g st (enemies s) (boats s) (newsFeed s).

Definition withBoats (bs : list Boat.t) (s : Sim) : Sim :=
  mkSim (gameStarted s) (grid s) (stats s) (enemies s) bs (newsFeed s).

(** The branch under the comment UPGRADE LOGIC. *)
Definition upgradeBranch (tool : BuildingType) (x y : Z)
    (currentTile : TileData.t) (s : Sim) : Sim :=
  let buildingConfig := BUILDINGS tool in
  let currentStats := stats s in
  if 3 <=? TileData.level currentTile then pushNews NewsMaxLevel s
  else
    let costMoney := upgradeCost (costMoney buildingConfig) (TileData.level currentTile) in
    let costWood := upgradeCost (costWood buildingConfig) (TileData.level currentTile) in
    let costStone := upgradeCost (costStone buildingConfig) (TileData.level currentTile) in
    if canAfford currentStats costMoney costWood costStone then
      let newGrid :=
        setTile (with_level (TileData.level currentTile + 1) currentTile) x y (grid s) in
      pushNews (NewsUpgraded tool (TileData.level currentTile + 1))
        (withGridStats newGrid (debit costMoney costWood costStone (stats s)) s)
    else pushNews (NewsUpgradeCosts costMoney costWood costStone) s.

(** The branch [if (tool === BuildingType.None)]. *)
Definition demolishBranch (x y : Z) (currentTile : TileData.t) (s : Sim) : Sim :=
  let currentStats := stats s in
  if bool_decide (TileData.buildingType currentTile ≠ BNone) then
    let demolishCost := 5 in
    if demolishCost <=? CityStats.money currentStats then
      let newGrid := setTile (with_building BNone 1 currentTile) x y (grid s) in
      let newGrid := recomputeLandValues demolishRange x y newGrid in
      let st := debit demolishCost 0 0 (stats s) in
      let st :=
        if bool_decide (TileData.resourceType currentTile = Forest)
        then addWood 10 st else st in
      withGridStats newGrid st s
    else s
  else s.

(** The branch under the comment Build. *)
Definition buildBranch (now : string) (tool : BuildingType) (x y : Z)
    (currentTile : TileData.t) (s : Sim) : Sim :=
  let buildingConfig := BUILDINGS tool in
  let currentStats := stats s in
  if bool_decide (TileData.buildingType currentTile = BNone) then
    if bool_decide (TileData.resourceType currentTile = Water)
       && bool_decide (tool ≠ Port) && bool_decide (tool ≠ Road)
    then pushNews NewsWaterOnly s
    else if bool_decide (tool = Port)
            && bool_decide (TileData.resourceType currentTile ≠ Water)
    then pushNews NewsPortOnWater s
    else if canAfford currentStats (costMoney buildingConfig)
              (costWood buildingConfig) (costStone buildingConfig)
    then
      let st := debit (costMoney buildingConfig) (costWood buildingConfig)
                  (costStone buildingConfig) (stats s) in
      let newGrid := setTile (with_building tool 1 currentTile) x y (grid s) in
      let bs :=
        if bool_decide (tool = Port)
        then boats s ++ [Boat.mk now (inject_Z x) (inject_Z y) None None idle]
        else boats s in
      let newGrid := recomputeLandValues buildRange x y newGrid in
      withBoats bs (withGridStats newGrid st s)
    else pushNews (NewsInsufficient tool) s
  else s.

Definition handleTileClick (now : string) (selectedTool : BuildingType)
    (x y : Z) (s : Sim) : Sim :=
  if negb (gameStarted s) then s
  else
    let currentGrid := grid s in
    let tool := selectedTool in
    if (x <? 0) || (GRID_SIZE <=? x) || (y <? 0) || (GRID_SIZE <=? y) then s
    else
      match lookupTile currentGrid x y with
      | None => s
      | Some currentTile =>
          if negb (TileData.explored currentTile) then s
          else if bool_decide (tool ≠ BNone)
                  && bool_decide (TileData.buildingType currentTile = tool)
          then upgradeBranch tool x y currentTile s
          else if bool_decide (tool = BNone)
          then demolishBranch x y currentTile s
          else buildBranch now tool x y currentTile s
      end.

(** ** The economy ticker *)

(** The accumulators of one sweep over [gridRef.current.flat()]. *)
Record Daily := mkDaily {
  dailyIncome : Q;
  dailyPopGrowth : Z;
  dailyWood : Z;
  dailyStone : Z;
  dailyFood : Z;
  buildingCounts : gmap BuildingType Z
}.

Definition noDaily : Daily := mkDaily 0%Q 0 0 0 0 ∅.

(** [buildingCounts[b] || 0] *)
Definition countOf (counts : gmap BuildingType Z) (b : BuildingType) : Z :=
  default 0 (counts !! b).

(** The body of the [forEach] over the flattened grid. *)
Definition sweepTile (acc : Daily) (tile : TileData.t) : Daily :=
  if bool_decide (TileData.buildingType tile ≠ BNone) then
    let b := TileData.buildingType tile in
    let config := BUILDINGS b in
    let levelMult := TileData.level tile in
    let income := (inject_Z (incomeGen config * levelMult) * TileData.landValue tile)%Q in
    let dIncome := (dailyIncome acc + income)%Q in
    let dPop := dailyPopGrowth acc + popGen config * levelMult in
    let counts := <[b := countOf (buildingCounts acc) b + 1]> (buildingCounts acc) in
    let dFood :=
      if bool_decide (b = Farm) then dailyFood acc + 15 * levelMult
      else dailyFood acc in
    let '(dWood, dStone, dIncome) :=
      if bool_decide (b = Industrial) then
        if bool_decide (TileData.resourceType tile = Forest)
        then (dailyWood acc + 5 * levelMult, dailyStone acc, dIncome)
        else if bool_decide (TileData.resourceType tile = Stone)
        then (dailyWood acc, dailyStone acc + 3 * levelMult, dIncome)
        else (dailyWood acc, dailyStone acc, (dIncome + inject_Z (5 * levelMult))%Q)
      else (dailyWood acc, dailyStone acc, dIncome) in
    let dIncome :=
      if bool_decide (b = Port) then (dIncome + inject_Z (5 * levelMult))%Q
      else dIncome in
    mkDaily dIncome dPop dWood dStone dFood counts
  else acc.

Definition sweep (g : Grid) : Daily := fold_left sweepTile (concat g) noDaily.

(** The two [Math.random()] draws of the weather roll. *)
Record EconomyRolls := mkEconomyRolls {
  weatherRoll : Q;
  weatherPick : Q
}.

(** [Math.ceil(prev.population * 0.2)] *)
Definition foodConsumption (prev : CityStats.t) : Z :=
  Qceiling (inject_Z (CityStats.population prev) * 0.2)%Q.

(** [newFood] before the clamp. *)
Definition rawFood (d : Daily) (prev : CityStats.t) : Z :=
  CityStats.food prev + dailyFood d - foodConsumption prev.

Definition starving (d : Daily) (prev : CityStats.t) : bool :=
  rawFood d prev <? 0.

Definition newFood (d : Daily) (prev : CityStats.t) : Z :=
  if rawFood d prev <? 0 then 0 else rawFood d prev.

(** [(resCount * 50) * 3] *)
Definition maxPop (d : Daily) : Z :=
  let resCount := countOf (buildingCounts d) Residential in
  (resCount * 50) * 3.

Definition newPop (d : Daily) (prev : CityStats.t) : Z :=
  let newPop :=
    CityStats.population prev + (if starving d prev then -5 else dailyPopGrowth d) in
  let newPop := if maxPop d <? newPop then maxPop d else newPop in
  if newPop <? 0 then 0 else newPop.

(** The [if / else if / else if] chain on [prev.era]. *)
Definition nextEra (prev : CityStats.t) (newPop : Z) : Era :=
  if bool_decide (CityStats.era prev = Primitive)
     && ((ERA_THRESHOLDS IndustrialEra).1 <=? newPop)
     && ((ERA_THRESHOLDS IndustrialEra).2 <=? CityStats.money prev)
  then IndustrialEra
  else if bool_decide (CityStats.era prev = IndustrialEra)
          && ((ERA_THRESHOLDS Modern).1 <=? newPop)
          && ((ERA_THRESHOLDS Modern).2 <=? CityStats.money prev)
  then Modern
  else if bool_decide (CityStats.era prev = Modern)
          && ((ERA_THRESHOLDS Future).1 <=? newPop)
          && ((ERA_THRESHOLDS Future).2 <=? CityStats.money prev)
  then Future
  else CityStats.era prev.

(** [weathers[Math.floor(Math.random() * weathers.length)]] under the
    guard [Math.random() > 0.95]. *)
Definition nextWeather (r : EconomyRolls) (prev : CityStats.t) : Weather :=
  if Qlt_bool 0.95 (weatherRoll r) then
    match Qfloor (weatherPick r * 3) with
    | 0 => Sunny
    | 1 => Rain
    | 2 => Snow
    | _ => CityStats.weather prev
    end
  else CityStats.weather prev.

(** The updater passed to [setStats], without its notifications. *)
Definition tickStats (r : EconomyRolls) (d : Daily) (prev : CityStats.t) : CityStats.t :=
  CityStats.mk
    (Qfloor (inject_Z (CityStats.money prev) + dailyIncome d))
    (CityStats.wood prev + dailyWood d)
    (CityStats.stone prev + dailyStone d)
    (newFood d prev)
    (newPop d prev)
    (CityStats.day prev + 1)
    (nextEra prev (newPop d prev))
    (nextWeather r prev).

Definition economyTick (r : EconomyRolls) (s : Sim) : Sim :=
  let d := sweep (grid s) in
  let prev := stats s in
  let newStats := tickStats r d prev in
  let feed := newsFeed s in
  let feed :=
    if bool_decide (CityStats.era newStats ≠ CityStats.era prev)
    then addNewsItem (NewsEraAdvance (CityStats.era newStats)) feed else feed in
  let feed :=
    if starving d prev && (0 <? CityStats.population prev)
       && (CityStats.day prev mod 3 =? 0)
    then addNewsItem NewsFoodShortage feed else feed in
  mkSim (gameStarted s) (grid s) newStats (enemies s) (boats s) feed.

(** ** The hostile agents *)

(** Every [(x, y)] in the order of the nested loops
    [for y ... for x ...]. *)
Definition coordinates : list (Z * Z) :=
  y ← seqZ 0 GRID_SIZE; x ← seqZ 0 GRID_SIZE; [(x, y)].

(** The random draws and the fresh identifier of one enemy tick;
    [stealRolls] holds one draw per agent, in list order. *)
Record EnemyRolls := mkEnemyRolls {
  spawnRoll : Q;
  edgeRoll : Q;
  posRoll : Q;
  alertRoll : Q;
  spawnId : string;
  stealRolls : list Q
}.

Definition spawnEnemy (r : EnemyRolls) (currentStats : CityStats.t) : Enemy.t :=
  let edge := Qfloor (edgeRoll r * 4) in
  let along := (posRoll r * inject_Z GRID_SIZE)%Q in
  let '(ex, ey) :=
    if edge =? 0 then (along, 0%Q)
    else if edge =? 1 then (along, inject_Z (GRID_SIZE - 1))
    else if edge =? 2 then (0%Q, along)
    else if edge =? 3 then (inject_Z (GRID_SIZE - 1), along)
    else (0%Q, 0%Q) in
  let hp0 := 50 + (if bool_decide (CityStats.era currentStats = Future) then 200 else 0) in
  Enemy.mk (spawnId r) ex ey hp0 hp0 0.

(** The search for the nearest tile that holds a building other than a
    road: [(targetX, targetY, minDist)], starting from [(-1, -1, 999)]. *)
Definition targetStep (g : Grid) (enemy : Enemy.t) (acc : Z * Z * Q) (c : Z * Z) : Z * Z * Q :=
  let '(x, y) := c in
  match lookupTile g x y with
  | Some tile =>
      if bool_decide (TileData.buildingType tile ≠ BNone)
         && bool_decide (TileData.buildingType tile ≠ Road)
      then
        let dist := (Qabs (Enemy.x enemy - inject_Z x) + Qabs (Enemy.y enemy - inject_Z y))%Q in
        if Qlt_bool dist acc.2 then (x, y, dist) else acc
      else acc
  | None => acc
  end.

Definition findTarget (g : Grid) (enemy : Enemy.t) : Z * Z * Q :=
  fold_left (targetStep g enemy) coordinates (-1, -1, 999%Q).

Definition turretRange : list (Z * Z) :=
  [(-1,0); (1,0); (0,-1); (0,1); (0,0); (-1,-1); (-1,1); (1,-1); (1,1)].

(** One iteration of the turret loop: [hp -= 5 * tile.level]. *)
Definition turretStep (g : Grid) (gridX gridY : Z) (hp : Z) (d : Z * Z) : Z :=
  let tx := gridX + d.1 in
  let ty := gridY + d.2 in
  if inBounds tx ty then
    match lookupTile g tx ty with
    | Some tile =>
        if bool_decide (TileData.buildingType tile = Defense)
        then hp - 5 * TileData.level tile else hp
    | None => hp
    end
  else hp.

Definition turretDamage (g : Grid) (gridX gridY : Z) (hp : Z) : Z :=
  fold_left (turretStep g gridX gridY) turretRange hp.

(** The callback of [prevEnemies.map]: the agent after its turn, and
    whether it called the theft updater
    [setStats(s => ({...s, money: Math.max(0, s.money - 10), food: Math.max(0, s.food - 5)}))]. *)
Definition updateEnemy (g : Grid) (roll : Q) (enemy : Enemy.t) : Enemy.t * bool :=
  let '(targetX, targetY, minDist) := findTarget g enemy in
  if targetX =? -1 then (enemy, false)
  else
    let '(nx, ny) :=
      if Qlt_bool 0.5 minDist then
        let dx := (inject_Z targetX - Enemy.x enemy)%Q in
        let dy := (inject_Z targetY - Enemy.y enemy)%Q in
        let moveSpeed := 0.1%Q in
        ((Enemy.x enemy + Qsign dx * moveSpeed)%Q,
         (Enemy.y enemy + Qsign dy * moveSpeed)%Q)
      else (Enemy.x enemy, Enemy.y enemy) in
    let hp := turretDamage g (Qround nx) (Qround ny) (Enemy.hp enemy) in
    if Qlt_bool minDist 1.0 && (Enemy.attackCooldown enemy <=? 0) then
      (Enemy.mk (Enemy.id enemy) nx ny hp (Enemy.maxHp enemy) 5,
       Qlt_bool 0.8 roll)
    else
      (Enemy.mk (Enemy.id enemy) nx ny hp (Enemy.maxHp enemy)
         (Z.max 0 (Enemy.attackCooldown enemy - 1)),
       false).

Definition theft (s : CityStats.t) : CityStats.t :=
  CityStats.mk (Z.max 0 (CityStats.money s - 10)) (CityStats.wood s)
    (CityStats.stone s) (Z.max 0 (CityStats.food s - 5))
    (CityStats.population s) (CityStats.day s) (CityStats.era s)
    (CityStats.weather s).

(** [prevEnemies.map(...)], threading the ledger through the theft
    updaters the callback queues. *)
Fixpoint mapEnemies (g : Grid) (rolls : list Q) (es : list Enemy.t)
    (st : CityStats.t) : list Enemy.t * CityStats.t :=
  match es with
  | [] => ([], st)
  | enemy :: es' =>
      let '(enemy', stole) := updateEnemy g (hd 0%Q rolls) enemy in
      let st := if stole then theft st else st in
      let '(rest, st) := mapEnemies g (tl rolls) es' st in
      (enemy' :: rest, st)
  end.

Definition alive (e : Enemy.t) : bool := 0 <? Enemy.hp e.

Definition enemyTick (r : EnemyRolls) (s : Sim) : Sim :=
  let currentStats := stats s in
  let spawnChance := Qmin 0.3 (inject_Z (CityStats.population currentStats) / 500) in
  let spawned :=
    Qlt_bool (spawnRoll r) spawnChance && (Z.of_nat (length (enemies s)) <? 10) in
  let es := if spawned then enemies s ++ [spawnEnemy r currentStats] else enemies s in
  let feed :=
    if spawned && Qlt_bool 0.7 (alertRoll r)
    then addNewsItem NewsHostilesDetected (newsFeed s) else newsFeed s in
  let '(es, st) := mapEnemies (grid s) (stealRolls r) es (stats s) in
  mkSim (gameStarted s) (grid s) st (filter (λ e, alive e = true) es) (boats s) feed.

(** [handleEnemyClick] *)
Definition handleEnemyClick (id : string) (s : Sim) : Sim :=
  let hit (e : Enemy.t) :=
    if bool_decide (Enemy.id e = id)
    then Enemy.mk (Enemy.id e) (Enemy.x e) (Enemy.y e) (Enemy.hp e - 20)
           (Enemy.maxHp e) (Enemy.attackCooldown e)
    else e in
  mkSim (gameStarted s) (grid s) (stats s)
    (filter (λ e, alive e = true) (map hit (enemies s))) (boats s) (newsFeed s).

(** ** The explorer agents *)

Definition revealRange : list (Z * Z) :=
  [(0,0); (1,0); (-1,0); (0,1); (0,-1); (1,1); (-1,-1)].

(** One iteration of the loop inside the [setGrid] updater: the grid,
    the ledger and the flag [foundSomething]. *)
Definition revealStep (gx gy : Z) (acc : Grid * CityStats.t * bool) (d : Z * Z)
    : Grid * CityStats.t * bool :=
  let '(ng, st, foundSomething) := acc in
  let '(rx, ry) := d in
  if inBounds (gx + rx) (gy + ry) then
    match lookupTile ng (gx + rx) (gy + ry) with
    | Some t =>
        if negb (TileData.explored t) then
          let ng := alterTile (with_explored true) (gx + rx) (gy + ry) ng in
          if bool_decide (TileData.resourceType t ≠ RNone)
             && bool_decide (TileData.resourceType t ≠ Water)
          then
            let st :=
              if bool_decide (TileData.resourceType t = Forest)
              then addWood 20 st else st in
            let st :=
              if bool_decide (TileData.resourceType t = Stone)
              then addStone 10 st else st in
            (ng, st, true)
          else (ng, st, foundSomething)
        else acc
    | None => acc
    end
  else acc.

(** The reveal of one boat at the rounded position [(gx, gy)], followed by
    the flat bonus [setStats(s => ({...s, money: s.money + 50}))] when
    something was found. *)
Definition revealArea (gx gy : Z) (g : Grid) (st : CityStats.t)
    : Grid * CityStats.t * bool :=
  let '(ng, st, foundSomething) :=
    fold_left (revealStep gx gy) revealRange (g, st, false) in
  (ng, if foundSomething then addMoney 50 st else st, foundSomething).

(** The nearest unexplored tile: first of the list unless a later one is
    strictly nearer than the running minimum, which starts at 999. *)
Definition closestStep (boat : Boat.t) (acc : Z * Z * Q) (t : Z * Z) : Z * Z * Q :=
  let d := (Qabs (inject_Z t.1 - Boat.x boat) + Qabs (inject_Z t.2 - Boat.y boat))%Q in
  if Qlt_bool d acc.2 then (t.1, t.2, d) else acc.

Definition findClosest (boat : Boat.t) (first : Z * Z) (unexploredTiles : list (Z * Z))
    : Z * Z :=
  (fold_left (closestStep boat) unexploredTiles (first.1, first.2, 999%Q)).1.

(** [!boat.targetX || grid[boat.targetY][boat.targetX].explored]: an absent
    target and the column 0 are both falsy.  A target outside the grid
    is never written by the ticker; there the JavaScript would throw and
    the boat keeps its target here. *)
Definition needsTarget (g : Grid) (boat : Boat.t) : bool :=
  match Boat.targetX boat with
  | None => true
  | Some tx =>
      if tx =? 0 then true
      else
        match Boat.targetY boat with
        | Some ty =>
            match lookupTile g tx ty with
            | Some t => TileData.explored t
            | None => false
            end
        | None => false
        end
  end.

(** The callback of [prev.map] in the boat ticker.  The list of
    unexplored tiles is the one computed when the tick starts.  The reveal
    writes [explored] into tile objects that the snapshot [gridRef.current]
    shares with the new grid, so the test of the target reads the flags as
    the reveals of the boats before this one left them: the current grid
    [g]. *)
Definition updateBoat (first : Z * Z) (unexploredTiles : list (Z * Z))
    (acc : list Boat.t * Grid * CityStats.t * list NewsItem) (boat : Boat.t)
    : list Boat.t * Grid * CityStats.t * list NewsItem :=
  let '(done, g, st, feed) := acc in
  let boat :=
    if needsTarget g boat then
      let closest := findClosest boat first unexploredTiles in
      Boat.mk (Boat.id boat) (Boat.x boat) (Boat.y boat)
        (Some closest.1) (Some closest.2) exploring
    else boat in
  let dx := (inject_Z (default 0%Z (Boat.targetX boat)) - Boat.x boat)%Q in
  let dy := (inject_Z (default 0%Z (Boat.targetY boat)) - Boat.y boat)%Q in
  let speed := 0.2%Q in
  let nx := (Boat.x boat + Qsign dx * speed)%Q in
  let ny := (Boat.y boat + Qsign dy * speed)%Q in
  let '(g, st, feed) :=
    if Qlt_bool (Qabs dx) 1.5 && Qlt_bool (Qabs dy) 1.5 then
      let '(ng, st, foundSomething) := revealArea (Qround nx) (Qround ny) g st in
      (ng, st, if foundSomething then addNewsItem NewsExpedition feed else feed)
    else (g, st, feed) in
  (done ++ [Boat.mk (Boat.id boat) nx ny (Boat.targetX boat) (Boat.targetY boat)
              (Boat.state boat)],
   g, st, feed).

Definition unexplored (g : Grid) (c : Z * Z) : bool :=
  match lookupTile g c.1 c.2 with
  | Some t => negb (TileData.explored t)
  | None => false
  end.

Definition boatTick (s : Sim) : Sim :=
  let grid0 := grid s in
  match boats s with
  | [] => s
  | _ =>
      let unexploredTiles := filter (λ c, unexplored grid0 c = true) coordinates in
      match unexploredTiles with
      | [] => s
      | first :: _ =>
          let '(bs, g, st, feed) :=
            fold_left (updateBoat first unexploredTiles) (boats s)
              ([], grid s, stats s, newsFeed s) in
          mkSim (gameStarted s) g st (enemies s) bs feed
      end
  end.

(** ** Sessions *)

(** [handleStart] *)
Definition handleStart (s : Sim) : Sim :=
  mkSim true (grid s) (stats s) (enemies s) (boats s) (newsFeed s).

(** Everything that can happen to the state: the two click handlers, the
    start button, and one firing of each of the three intervals, which
    exist only once the game has started. *)
Inductive Command :=
| TileClick (now : string) (selectedTool : BuildingType) (x y : Z)
| EnemyClick (id : string)
| Start
| EconomyTick (r : EconomyRolls)
| EnemyTick (r : EnemyRolls)
| BoatTick.

Definition execute (s : Sim) (c : Command) : Sim :=
  match c with
  | TileClick now tool x y => handleTileClick now tool x y s
  | EnemyClick id => handleEnemyClick id s
  | Start => handleStart s
  | EconomyTick r => if gameStarted s then economyTick r s else s
  | EnemyTick r => if gameStarted s then enemyTick r s else s
  | BoatTick => if gameStarted s then boatTick s else s
  end.

Definition run (cs : list Command) (s : Sim) : Sim := fold_left execute cs s.

(** What [createInitialGrid] guarantees of every tile, whatever the
    land mask and the random resources: no building, level 1, land
    value 1.0. *)
Definition freshTile (t : TileData.t) : Prop :=
  TileData.buildingType t = BNone ∧ TileData.level t = 1
  ∧ TileData.landValue t = 1.0%Q.

Definition initialGrid (g : Grid) : Prop :=
  wf_grid g ∧ Forall (Forall freshTile) g.

(** The state [App] starts from, for a grid of [createInitialGrid]. *)
Definition initialSim (g : Grid) : Sim :=
  mkSim false g INITIAL_STATS [] [] [].

Definition reachable (s : Sim) : Prop :=
  ∃ g cs, initialGrid g ∧ s = run cs (initialSim g).

(** ** Concrete states *)

(** An explored tile of bare land. *)
Definition plainTile (x y : Z) : TileData.t :=
  TileData.mk x y BNone RNone 1.0%Q 0%Q 1 true.

(** A grid of bare, explored land: one of the grids [createInitialGrid]
    can produce as far as buildings, levels and land values go. *)
Definition plainGrid : Grid :=
  map (λ y, map (λ x, plainTile x y) (seqZ 0 GRID_SIZE)) (seqZ 0 GRID_SIZE).

(** A started session on [plainGrid] with the initial ledger. *)
Definition plainSim : Sim := handleStart (initialSim plainGrid).

Definition noRolls : EconomyRolls := mkEconomyRolls 0%Q 0%Q.

Definition quietRolls : EnemyRolls := mkEnemyRolls 1%Q 0%Q 0%Q 0%Q "e" [].

(** The land value a tile holds, for comparison with what
    [calculateLandValue] gives on the same grid. *)
Definition storedLandValue (g : Grid) (x y : Z) : option Q :=
  TileData.landValue <$> lookupTile g x y.

Definition levelAt (g : Grid) (x y : Z) : option Z :=
  TileData.level <$> lookupTile g x y.

(** The recomputation invariant at one position, as a boolean. *)
Definition landValueCurrent (g : Grid) (c : Z * Z) : bool :=
  match lookupTile g c.1 c.2 with
  | Some t => Qeq_bool (TileData.landValue t) (calculateLandValue g c.1 c.2)
  | None => true
  end.

Definition allLandValuesCurrent (g : Grid) : bool :=
  forallb (landValueCurrent g) coordinates.


(** ** Vocabulary of the statements *)

(** The position of an era in the order of progression. *)
Definition eraRank (e : Era) : Z :=
  match e with
  | Primitive => 0 | IndustrialEra => 1 | Modern => 2 | Future => 3
  end.

(** The census of the sweep counts the tiles of each building type. *)
Definition tilesOf (b : BuildingType) (l : list TileData.t) : list TileData.t :=
  filter (λ t, TileData.buildingType t = b) l.



(** Grid, ledger and agents are the same in both states (the news feed
    may differ). *)
Definition unchanged (s s' : Sim) : Prop :=
  grid s' = grid s ∧ stats s' = stats s ∧ enemies s' = enemies s
  ∧ boats s' = boats s.







(** What [calculateLandValue] reads of a tile. *)
Definition tileKey (t : TileData.t) : ResourceType * BuildingType * Z :=
  (TileData.resourceType t, TileData.buildingType t, TileData.level t).

(** The water rule of the build branch: a water tile takes a Port or a
    Road only, and a Port goes on water only. *)
Definition waterRule (tool : BuildingType) (r : ResourceType) : bool :=
  (if bool_decide (r = Water)
   then bool_decide (tool = Port) || bool_decide (tool = Road) else true)
  && (if bool_decide (tool = Port) then bool_decide (r = Water) else true).


(** [plainGrid] with open water at the corner [(0, 0)]. *)
Definition coastGrid : Grid :=
  setTile (TileData.mk 0 0 BNone Water 1.0%Q 0%Q 1 true) 0 0 plainGrid.

Definition coastSim : Sim := handleStart (initialSim coastGrid).

(** A Park at [(5, 5)] of [plainSim], built by a click. *)
Definition parkSim : Sim := handleTileClick "b" Park 5 5 plainSim.


(** The session that builds one Defense tower and then lets [n] economy
    ticks pass. *)
Definition upkeepSession (n : nat) : list Command :=
  Start :: TileClick "b" Defense 5 5 :: replicate n (EconomyTick noRolls).

(** The level invariant of a tile: between 1 and 3, and 1 on a tile
    without a building. *)
Definition tileLevelOk (t : TileData.t) : Prop :=
  1 <= TileData.level t <= 3
  ∧ (TileData.buildingType t = BNone → TileData.level t = 1).

Definition levelsOk (g : Grid) : Prop :=
  ∀ x y t, lookupTile g x y = Some t → tileLevelOk t.

(** [{...e, hp: h}] *)
Definition with_hp (h : Z) (e : Enemy.t) : Enemy.t :=
  Enemy.mk (Enemy.id e) (Enemy.x e) (Enemy.y e) h (Enemy.maxHp e)
    (Enemy.attackCooldown e).

(** The list the movement updater maps over: the agents, and the one
    spawned in this tick when there is one. *)
Definition enemiesAtTick (r : EnemyRolls) (s : Sim) : list Enemy.t :=
  if Qlt_bool (spawnRoll r)
       (Qmin 0.3 (inject_Z (CityStats.population (stats s)) / 500))
     && (Z.of_nat (length (enemies s)) <? 10)
  then enemies s ++ [spawnEnemy r (stats s)] else enemies s.



(** No spawn, and a theft draw above 0.8 for the first agent. *)
Definition raidRolls : EnemyRolls := mkEnemyRolls 1%Q 0%Q 0%Q 0%Q "e" [1%Q].

(** The level invariant as a check that runs. *)
Definition tileLevelOkb (t : TileData.t) : bool :=
  (1 <=? TileData.level t) && (TileData.level t <=? 3)
  && (if bool_decide (TileData.buildingType t = BNone)
      then TileData.level t =? 1 else true).

(** [parkSim] after a second click with the Park tool: the Park is at
    level 2. *)
Definition upgradedParkSim : Sim := handleTileClick "b" Park 5 5 parkSim.





(** [upgradedParkSim] after a third click with the Park tool: level 3. *)
Definition maxedParkSim : Sim := handleTileClick "b" Park 5 5 upgradedParkSim.

(** * Vocabulary of the further properties *)

(** ** Outcomes of a click *)

(** The three costs of an upgrade of [cur] with [tool]. *)
Definition upgradeCosts (tool : BuildingType) (cur : TileData.t) : Z * Z * Z :=
  (upgradeCost (costMoney (BUILDINGS tool)) (TileData.level cur),
   upgradeCost (costWood (BUILDINGS tool)) (TileData.level cur),
   upgradeCost (costStone (BUILDINGS tool)) (TileData.level cur)).



(** ** Invariants *)

(** What no command changes of a tile: its coordinates, its resource and
    its variant; and an explored tile stays explored. *)
Definition sameTerrain (t t' : TileData.t) : Prop :=
  TileData.x t' = TileData.x t ∧ TileData.y t' = TileData.y t
  ∧ TileData.resourceType t' = TileData.resourceType t
  ∧ TileData.variant t' = TileData.variant t
  ∧ (TileData.explored t = true → TileData.explored t' = true).

(** Every stored land value is what [calculateLandValue] gives on the
    grid as it is. *)
Definition landValuesCurrent (g : Grid) : Prop :=
  ∀ i j t, lookupTile g i j = Some t →
    (TileData.landValue t == calculateLandValue g i j)%Q.

(** Every stored land value lies between 0.5 and 2.5. *)
Definition landValuesBounded (g : Grid) : Prop :=
  ∀ i j t, lookupTile g i j = Some t →
    (0.5 <= TileData.landValue t <= 2.5)%Q.



(** One ledger is the other with possibly more wood, stone and money. *)
Definition gained (st st' : CityStats.t) : Prop :=
  CityStats.wood st <= CityStats.wood st'
  ∧ CityStats.stone st <= CityStats.stone st'
  ∧ CityStats.money st <= CityStats.money st'
  ∧ CityStats.food st' = CityStats.food st
  ∧ CityStats.population st' = CityStats.population st
  ∧ CityStats.day st' = CityStats.day st
  ∧ CityStats.era st' = CityStats.era st
  ∧ CityStats.weather st' = CityStats.weather st.

(** One ledger is the other after at most [n] thefts: money and food may
    be lower, by at most 10 and 5 per theft and never below zero when they
    were not; everything else is equal. *)
Definition robbed (n : Z) (st st' : CityStats.t) : Prop :=
  (0 <= CityStats.money st →
   0 <= CityStats.money st' <= CityStats.money st
   ∧ CityStats.money st - 10 * n <= CityStats.money st')
  ∧ (0 <= CityStats.food st →
     0 <= CityStats.food st' <= CityStats.food st
     ∧ CityStats.food st - 5 * n <= CityStats.food st')
  ∧ CityStats.wood st' = CityStats.wood st
  ∧ CityStats.stone st' = CityStats.stone st
  ∧ CityStats.population st' = CityStats.population st
  ∧ CityStats.day st' = CityStats.day st
  ∧ CityStats.era st' = CityStats.era st
  ∧ CityStats.weather st' = CityStats.weather st.

(** ** The harvest of a sweep *)

(** The sum of the levels of the tiles of [l] that satisfy [P]. *)
Definition levelTotal (P : TileData.t → Prop) `{!∀ t, Decision (P t)}
    (l : list TileData.t) : Z :=
  foldr Z.add 0 (TileData.level <$> filter P l).

(** Industry on a forest, industry on a stone deposit, and farms. *)
Definition isSawmill (t : TileData.t) : Prop :=
  TileData.buildingType t = Industrial ∧ TileData.resourceType t = Forest.

Definition isQuarry (t : TileData.t) : Prop :=
  TileData.buildingType t = Industrial ∧ TileData.resourceType t = Stone.

Definition isFarm (t : TileData.t) : Prop := TileData.buildingType t = Farm.

#[global] Instance isSawmill_dec t : Decision (isSawmill t).
Proof. unfold isSawmill. apply _. Defined.

#[global] Instance isQuarry_dec t : Decision (isQuarry t).
Proof. unfold isQuarry. apply _. Defined.

#[global] Instance isFarm_dec t : Decision (isFarm t).
Proof. unfold isFarm. apply _. Defined.

(** [defenseSim] with an empty ledger but for the money the tower left. *)
Definition noDefenseSim : Sim := handleTileClick "b" Residential 5 5 plainSim.


(** ** Sessions *)

Definition isEconomyTick (c : Command) : bool :=
  match c with EconomyTick _ => true | _ => false end.

(** [coastSim] once a Port stands on its water tile: one boat, and no
    tile left to explore. *)
Definition portSim : Sim := handleTileClick "b" Port 0 0 coastSim.

(** ** [createInitialGrid] *)

(** What [createInitialGrid] takes from outside the integers: for every
    position, the outcome of the test [dist < 4.5 + noise(x, y)] (a square
    root and three sines and cosines), and the two [Math.random()] draws
    of the tile. *)
Record TerrainDraws := mkTerrainDraws {
  mainIsland : Z → Z → bool;
  resourceRoll : Z → Z → Q;
  variantRoll : Z → Z → Q
}.

(** [isLand]: the main island, or one of the three satellite islands. *)
Definition isLand (d : TerrainDraws) (x y : Z) : bool :=
  if mainIsland d x y then true
  else if (Z.abs (x - 3) <? 2) && (Z.abs (y - 3) <? 2) then true
  else if (Z.abs (x - 16) <? 3) && (Z.abs (y - 15) <? 2) then true
  else if (Z.abs (x - 14) <? 2) && (Z.abs (y - 4) <? 2) then true
  else false.

(** The tile pushed for [(x, y)].  [dist < 6] compares the square root of
    an integer with 6, which is the comparison of that integer with 36. *)
Definition createTile (d : TerrainDraws) (x y : Z) : TileData.t :=
  let center := GRID_SIZE / 2 in
  let rType :=
    if negb (isLand d x y) then Water
    else
      let rand := resourceRoll d x y in
      if Qlt_bool 0.90 rand then Stone
      else if Qlt_bool 0.75 rand then Forest
      else RNone in
  let explored :=
    (x - center) * (x - center) + (y - center) * (y - center) <? 36 in
  TileData.mk x y BNone rType 1.0%Q (variantRoll d x y) 1 explored.

Definition createInitialGrid (d : TerrainDraws) : Grid :=
  (λ y, (λ x, createTile d x y) <$> seqZ 0 GRID_SIZE) <$> seqZ 0 GRID_SIZE.

(** ** The goal check of the economy ticker *)

Inductive GoalTarget :=
| GoalPopulation | GoalMoney | GoalBuildingCount | GoalResourceStockpile.

#[global] Instance GoalTarget_eq_dec : EqDecision GoalTarget.
Proof. solve_decision. Defined.

(** [AIGoal]; the numbers come from the oracle and need not be integers. *)
Module AIGoal.
Record t := mk {
  description : string;
  targetType : GoalTarget;
  targetValue : Q;
  buildingType : option BuildingType;
  reward : Q;
  completed : bool
}.
End AIGoal.



(** ** Clicks on a hostile agent *)

(** What [n] clicks on the identifier [id] leave of an agent. *)
Definition clicked (id : string) (n : nat) (e : Enemy.t) : option Enemy.t :=
  if bool_decide (Enemy.id e = id) then
    if 20 * Z.of_nat n <? Enemy.hp e
    then Some (with_hp (Enemy.hp e - 20 * Z.of_nat n) e)
    else None
  else Some e.

(** * Properties *)

(** ** Grid access *)

Lemma lookupTile_alterTile (f : TileData.t → TileData.t) (x y : Z) (g : Grid) (i j : Z) :
  lookupTile (alterTile f x y g) i j =
  if decide (i = x ∧ j = y) then f <$> lookupTile g i j else lookupTile g i j.
Proof.
  unfold lookupTile, alterTile.
  destruct (0 <=? i) eqn:Hi, (0 <=? j) eqn:Hj; simpl;
    try (by case_decide).
  destruct (0 <=? x) eqn:Hx, (0 <=? y) eqn:Hy; simpl;
    try (case_decide; [lia | done]).
  destruct (decide (j = y)) as [->|Hne].
  - rewrite list_lookup_alter_eq.
    destruct (g !! Z.to_nat y) as [row|]; simpl; [|by case_decide].
    destruct (decide (i = x)) as [->|Hne].
    + rewrite list_lookup_alter_eq. by rewrite decide_True.
    + rewrite list_lookup_alter_ne by lia. rewrite decide_False; [done | tauto].
  - rewrite list_lookup_alter_ne by lia. rewrite decide_False; [done | tauto].
Qed.

Lemma wf_grid_lookup (g : Grid) (x y : Z) :
  wf_grid g → inBounds x y = true → is_Some (lookupTile g x y).
Proof.
  intros [Hlen Hrows] Hb. unfold inBounds, GRID_SIZE in *. unfold lookupTile.
  assert (0 <= x < 20 ∧ 0 <= y < 20) as [Hx Hy] by lia.
  rewrite (proj2 (Z.leb_le 0 x)), (proj2 (Z.leb_le 0 y)) by lia. simpl.
  destruct (lookup_lt_is_Some_2 g (Z.to_nat y)) as [row Hrow]; [lia|].
  rewrite Hrow. simpl. apply lookup_lt_is_Some_2.
  rewrite Forall_lookup in Hrows. rewrite (Hrows _ _ Hrow). lia.
Qed.

Lemma plainGrid_wf : wf_grid plainGrid.
Proof. split; [reflexivity|]. repeat constructor. Qed.

(** ** The economy ticker: eras *)

(** C4.  One economy tick never lowers the era and raises it by at most
    one step of Primitive, Industrial, Modern, Future, however high the
    population and the money are; and when it raises it, the population
    after the tick and the money before the tick both reach the thresholds
    of the era that is entered. *)
Theorem era_advances_one_gated_step (r : EconomyRolls) (s : Sim) :
  let prev := stats s in
  let next := stats (economyTick r s) in
  eraRank (CityStats.era prev) <= eraRank (CityStats.era next)
    <= eraRank (CityStats.era prev) + 1
  ∧ (CityStats.era next ≠ CityStats.era prev →
     eraRank (CityStats.era next) = eraRank (CityStats.era prev) + 1
     ∧ (ERA_THRESHOLDS (CityStats.era next)).1 <= CityStats.population next
     ∧ (ERA_THRESHOLDS (CityStats.era next)).2 <= CityStats.money prev).
Proof.
  simpl. unfold nextEra.
  generalize (newPop (sweep (grid s)) (stats s)); intros p.
  destruct (CityStats.era (stats s)) eqn:He; simpl;
    repeat match goal with
           | |- context [?a <=? ?b] => destruct (Z.leb_spec a b); simpl
           end;
    (split; [lia | intros Hne; try done; repeat split; lia]).
Qed.

(** ** The economy ticker: food and population *)

Lemma foodConsumption_ceil (prev : CityStats.t) :
  foodConsumption prev = (CityStats.population prev + 4) / 5.
Proof.
  unfold foodConsumption, Qceiling, Qfloor. generalize (CityStats.population prev).
  intros p. simpl. change (Z.pos (1 * 10)) with 10.
  pose proof (Z.div_mod (- (p * 2)) 10 ltac:(lia)).
  pose proof (Z.mod_pos_bound (- (p * 2)) 10 ltac:(lia)).
  pose proof (Z.div_mod (p + 4) 5 ltac:(lia)).
  pose proof (Z.mod_pos_bound (p + 4) 5 ltac:(lia)).
  lia.
Qed.

Lemma sweepTile_count (acc : Daily) (tile : TileData.t) (b : BuildingType) :
  b ≠ BNone →
  countOf (buildingCounts (sweepTile acc tile)) b =
  countOf (buildingCounts acc) b
  + (if decide (TileData.buildingType tile = b) then 1 else 0).
Proof.
  intros Hb. unfold sweepTile.
  case_bool_decide as Hn; simpl.
  - repeat case_bool_decide;
      repeat match goal with |- context [if ?c then _ else _] => destruct c end;
      simpl; unfold countOf;
      try (subst b; rewrite lookup_insert_eq; simpl; lia);
      try (rewrite lookup_insert_ne by done; lia).
  - rewrite decide_False; [lia|]. intros E. apply Hb. rewrite <- E.
    destruct (decide (TileData.buildingType tile = BNone)); [done|contradiction].
Qed.

Lemma sweep_count (b : BuildingType) (l : list TileData.t) (acc : Daily) :
  b ≠ BNone →
  countOf (buildingCounts (fold_left sweepTile l acc)) b =
  countOf (buildingCounts acc) b + Z.of_nat (length (tilesOf b l)).
Proof.
  intros Hb. revert acc. induction l as [|t l IH]; intros acc; simpl.
  - unfold tilesOf. simpl. lia.
  - rewrite IH, sweepTile_count by done. unfold tilesOf.
    rewrite filter_cons. case_decide; simpl; lia.
Qed.

(** C5.  In one economy tick the food eaten is the population divided by
    five, rounded up; the food left is the stock plus the harvest minus
    that, or zero when that is negative; in the latter case the population
    loses 5 and otherwise it gains the growth of the sweep; the result is
    cut to 150 times the number of Residential tiles and then to zero from
    below. *)
Theorem tick_food_and_population (r : EconomyRolls) (s : Sim) :
  let prev := stats s in
  let next := stats (economyTick r s) in
  let d := sweep (grid s) in
  let eaten := foodConsumption prev in
  let left := CityStats.food prev + dailyFood d - eaten in
  let cap := 150 * Z.of_nat (length (tilesOf Residential (concat (grid s)))) in
  5 * (eaten - 1) < CityStats.population prev <= 5 * eaten
  ∧ CityStats.food next = Z.max 0 left
  ∧ CityStats.population next =
    Z.max 0 (Z.min cap
      (CityStats.population prev + (if left <? 0 then -5 else dailyPopGrowth d)))
  ∧ 0 <= CityStats.population next <= cap.
Proof.
  simpl.
  assert (Hcap : maxPop (sweep (grid s))
                 = 150 * Z.of_nat (length (tilesOf Residential (concat (grid s))))).
  { unfold maxPop, sweep. rewrite sweep_count by done.
    unfold noDaily, countOf. simpl. rewrite lookup_empty. simpl. lia. }
  unfold newFood, newPop, starving, rawFood. rewrite Hcap.
  set (cap := 150 * _). set (left := _ + _ - _).
  assert (0 <= cap) by (unfold cap; lia).
  split.
  { rewrite foodConsumption_ceil.
    pose proof (Z.div_mod (CityStats.population (stats s) + 4) 5 ltac:(lia)).
    pose proof (Z.mod_pos_bound (CityStats.population (stats s) + 4) 5 ltac:(lia)).
    lia. }
  repeat match goal with
         | |- context [?a <? ?b] => destruct (Z.ltb_spec a b); simpl
         | H : context [?a <? ?b] |- _ => destruct (Z.ltb_spec a b); simpl in H
         end; lia.
Qed.

(** ** The click handler: atomic transactions *)

Lemma unchanged_refl (s : Sim) : unchanged s s.
Proof. by repeat split. Qed.

Lemma unchanged_pushNews (item : NewsItem) (s : Sim) : unchanged s (pushNews item s).
Proof. by repeat split. Qed.

Create HintDb click.

#[local] Hint Resolve unchanged_refl unchanged_pushNews : click.




(** ** The land value model *)







(** ** Land values under grid updates *)

Lemma landValueTile_key (t t' : TileData.t) (v : Q) :
  tileKey t = tileKey t' → landValueTile t v = landValueTile t' v.
Proof.
  unfold tileKey, landValueTile. intros [= -> -> ->]. done.
Qed.

(** [calculateLandValue] reads resources, buildings and levels only. *)
Lemma calculateLandValue_ext (g g' : Grid) (x y : Z) :
  (∀ i j, tileKey <$> lookupTile g i j = tileKey <$> lookupTile g' i j) →
  calculateLandValue g x y = calculateLandValue g' x y.
Proof.
  intros Hkey. unfold calculateLandValue. do 2 f_equal.
  generalize 1.0%Q. induction neighbors as [|d l IH]; intros v; [done|].
  simpl. rewrite <- IH. f_equal. unfold landValueStep.
  destruct (inBounds (x + d.1) (y + d.2)); [|done].
  specialize (Hkey (x + d.1) (y + d.2)).
  destruct (lookupTile g _ _), (lookupTile g' _ _); simpl in Hkey; try done.
  apply landValueTile_key. congruence.
Qed.

Lemma with_landValue_twice (v v' : Q) (o : option TileData.t) :
  with_landValue v <$> (with_landValue v' <$> o) = with_landValue v <$> o.
Proof. by destruct o. Qed.

Lemma lookupTile_recomputeStep (x y : Z) (g : Grid) (d : Z * Z) (i j : Z) :
  lookupTile (recomputeStep x y g d) i j =
  if decide ((i - x, j - y) = d ∧ inBounds i j = true)
  then with_landValue (calculateLandValue g i j) <$> lookupTile g i j
  else lookupTile g i j.
Proof.
  unfold recomputeStep. destruct d as [dx dy]. simpl.
  destruct (inBounds (x + dx) (y + dy)) eqn:Hb.
  - rewrite lookupTile_alterTile.
    destruct (decide (i = x + dx ∧ j = y + dy)) as [[-> ->]|Hne].
    + rewrite decide_True; [done|]. split; [f_equal; lia | done].
    + rewrite decide_False; [done|]. intros [[= <- <-] _]. apply Hne. lia.
  - rewrite decide_False; [done|]. intros [[= <- <-] Hb'].
    replace (x + (i - x)) with i in Hb by lia.
    replace (y + (j - y)) with j in Hb by lia. congruence.
Qed.

Lemma recomputeStep_key (x y : Z) (g : Grid) (d : Z * Z) (i j : Z) :
  tileKey <$> lookupTile (recomputeStep x y g d) i j = tileKey <$> lookupTile g i j.
Proof.
  rewrite lookupTile_recomputeStep. case_decide; [|done].
  by destruct (lookupTile g i j).
Qed.

(** The loop that refreshes land values writes, at every in-bounds cell
    of its range, the value [calculateLandValue] has on the grid it
    started from, and touches nothing else. *)
Lemma lookupTile_recompute (range : list (Z * Z)) (x y : Z) (g : Grid) (i j : Z) :
  lookupTile (recomputeLandValues range x y g) i j =
  if decide ((i - x, j - y) ∈ range ∧ inBounds i j = true)
  then with_landValue (calculateLandValue g i j) <$> lookupTile g i j
  else lookupTile g i j.
Proof.
  unfold recomputeLandValues. revert g.
  induction range as [|d range IH]; intros g; cbn [fold_left].
  - rewrite decide_False; [done|]. intros [H _]. by apply elem_of_nil in H.
  - rewrite IH.
    rewrite (calculateLandValue_ext (recomputeStep x y g d) g)
      by (intros; apply recomputeStep_key).
    rewrite lookupTile_recomputeStep.
    destruct (decide ((i - x, j - y) ∈ range ∧ inBounds i j = true)) as [[Hin Hb]|Hn].
    + rewrite (decide_True (P := _ ∈ d :: range ∧ _)) by (split; [by right | done]).
      case_decide; [apply with_landValue_twice | done].
    + destruct (decide ((i - x, j - y) = d ∧ inBounds i j = true)) as [[Hd Hb]|Hn'].
      * rewrite decide_True; [done|]. split; [rewrite Hd; by left | done].
      * rewrite decide_False; [done|]. intros [Hin Hb].
        apply elem_of_cons in Hin as [Hd|Hin]; [apply Hn' | apply Hn]; done.
Qed.

Lemma recompute_key (range : list (Z * Z)) (x y : Z) (g : Grid) (i j : Z) :
  tileKey <$> lookupTile (recomputeLandValues range x y g) i j
  = tileKey <$> lookupTile g i j.
Proof.
  rewrite lookupTile_recompute. case_decide; [|done].
  by destruct (lookupTile g i j).
Qed.

Lemma calculateLandValue_recompute (range : list (Z * Z)) (x y : Z) (g : Grid) (i j : Z) :
  calculateLandValue (recomputeLandValues range x y g) i j = calculateLandValue g i j.
Proof. apply calculateLandValue_ext. intros. apply recompute_key. Qed.

Lemma lookupTile_setTile (t t' : TileData.t) (x y : Z) (g : Grid) (i j : Z) :
  lookupTile g x y = Some t →
  lookupTile (setTile t' x y g) i j =
  if decide (i = x ∧ j = y) then Some t' else lookupTile g i j.
Proof.
  intros Ht. unfold setTile. rewrite lookupTile_alterTile.
  case_decide as H; [|done]. destruct H as [-> ->]. by rewrite Ht.
Qed.

Lemma buildRange_spec (a b : Z) :
  (a, b) ∈ buildRange ↔ -1 <= a <= 1 ∧ -1 <= b <= 1.
Proof.
  unfold buildRange. rewrite !elem_of_cons, elem_of_nil. split.
  - intros H. repeat destruct H as [H|H]; try done; injection H; lia.
  - intros [Ha Hb].
    assert (a = -1 ∨ a = 0 ∨ a = 1) as [->|[->| ->]] by lia;
      assert (b = -1 ∨ b = 0 ∨ b = 1) as [->|[->| ->]] by lia; tauto.
Qed.

(** ** The click handler: building *)

Arguments recomputeLandValues : simpl never.

Lemma outOfBounds_inBounds (x y : Z) :
  (x <? 0) || (GRID_SIZE <=? x) || (y <? 0) || (GRID_SIZE <=? y)
  = negb (inBounds x y).
Proof.
  unfold inBounds.
  destruct (Z.ltb_spec x 0), (Z.leb_spec GRID_SIZE x), (Z.ltb_spec y 0),
    (Z.leb_spec GRID_SIZE y), (Z.leb_spec 0 x), (Z.ltb_spec x GRID_SIZE),
    (Z.leb_spec 0 y), (Z.ltb_spec y GRID_SIZE); simpl; try done; lia.
Qed.




(** ** Stale land values *)

Lemma plainGrid_initial : initialGrid plainGrid.
Proof. split; [apply plainGrid_wf|]. repeat constructor. Qed.

(** C2.  On a grid where every stored land value is current, a Park is
    built at [(5, 5)] (every land value is still current) and then
    upgraded: the neighbour [(4, 5)] keeps the land value it had, which is
    no longer what [calculateLandValue] gives.  Demolishing the Park
    instead leaves the diagonal neighbour [(4, 4)] with a stale value. *)
Theorem upgrade_and_demolish_leave_stale_land_values :
  let upgraded := handleTileClick "b" Park 5 5 parkSim in
  let demolished := handleTileClick "b" BNone 5 5 parkSim in
  allLandValuesCurrent (grid plainSim) = true
  ∧ allLandValuesCurrent (grid parkSim) = true
  ∧ levelAt (grid upgraded) 5 5 = Some 2
  ∧ storedLandValue (grid upgraded) 4 5 = storedLandValue (grid parkSim) 4 5
  ∧ landValueCurrent (grid upgraded) (4, 5) = false
  ∧ (TileData.buildingType <$> lookupTile (grid demolished) 5 5) = Some BNone
  ∧ landValueCurrent (grid demolished) (4, 5) = true
  ∧ landValueCurrent (grid demolished) (4, 4) = false.
Proof. vm_compute. repeat split. Qed.

(** ** Negative money *)

(** C7.  From the initial ledger, one Defense tower and 271 economy ticks
    lead to a reachable state whose money is -5, while the other counters
    are not negative. *)
Theorem defense_upkeep_makes_money_negative :
  let s := run (upkeepSession 271) (initialSim plainGrid) in
  reachable s
  ∧ CityStats.money (stats s) = -5
  ∧ CityStats.money (stats (run (upkeepSession 270) (initialSim plainGrid))) = 0.
Proof.
  split; [|vm_compute; done].
  exists plainGrid, (upkeepSession 271). split; [apply plainGrid_initial | done].
Qed.

(** ** Hostile agents *)









Lemma levelsOk_check (g : Grid) :
  forallb (forallb tileLevelOkb) g = true → levelsOk g.
Proof.
  intros Hall x y t Ht. unfold lookupTile in Ht.
  destruct (_ && _); [|done].
  destruct (g !! Z.to_nat y) as [row|] eqn:Hrow; [|done]. simpl in Ht.
  rewrite forallb_forall in Hall.
  apply list_elem_of_lookup_2, list_elem_of_In, Hall in Hrow.
  rewrite forallb_forall in Hrow.
  apply list_elem_of_lookup_2, list_elem_of_In, Hrow in Ht.
  unfold tileLevelOkb in Ht. unfold tileLevelOk.
  apply andb_true_iff in Ht as [Ht Hn]. apply andb_true_iff in Ht as [H1 H3].
  split; [lia|]. intros Hb. rewrite bool_decide_eq_true_2 in Hn by done. lia.
Qed.


(** ** Levels *)

(** C6, as stated, fails: demolishing the level 2 Park of
    [upgradedParkSim] brings the level of its tile back to 1. *)
Lemma demolition_lowers_level :
  levelAt (grid upgradedParkSim) 5 5 = Some 2
  ∧ levelAt (grid (handleTileClick "b" BNone 5 5 upgradedParkSim)) 5 5 = Some 1.
Proof. vm_compute. done. Qed.

Lemma with_landValue_id (t : TileData.t) : with_landValue (TileData.landValue t) t = t.
Proof. by destruct t. Qed.

(** What a click does to the tile at [(i, j)]: at most a new land value,
    unless it is the clicked tile of an accepted upgrade, demolition or
    build. *)
Lemma handleTileClick_tile (now : string) (tool : BuildingType) (x y : Z)
    (s : Sim) (i j : Z) (t : TileData.t) :
  lookupTile (grid s) i j = Some t →
  ∃ t', lookupTile (grid (handleTileClick now tool x y s)) i j = Some t'
    ∧ ((∃ v, t' = with_landValue v t)
       ∨ (i = x ∧ j = y ∧ tool ≠ BNone ∧ TileData.buildingType t = tool
          ∧ TileData.level t < 3
          ∧ t' = with_level (TileData.level t + 1) t)
       ∨ (i = x ∧ j = y ∧ tool = BNone
          ∧ ∃ v, t' = with_landValue v (with_building BNone 1 t))
       ∨ (i = x ∧ j = y ∧ tool ≠ BNone ∧ TileData.buildingType t = BNone
          ∧ ∃ v, t' = with_landValue v (with_building tool 1 t))).
Proof.
  intros Ht.
  assert (Hsame : ∃ t', lookupTile (grid s) i j = Some t'
            ∧ ((∃ v, t' = with_landValue v t)
       ∨ (i = x ∧ j = y ∧ tool ≠ BNone ∧ TileData.buildingType t = tool
          ∧ TileData.level t < 3
          ∧ t' = with_level (TileData.level t + 1) t)
       ∨ (i = x ∧ j = y ∧ tool = BNone
          ∧ ∃ v, t' = with_landValue v (with_building BNone 1 t))
       ∨ (i = x ∧ j = y ∧ tool ≠ BNone ∧ TileData.buildingType t = BNone
          ∧ ∃ v, t' = with_landValue v (with_building tool 1 t)))).
  { exists t. split; [done|]. left. exists (TileData.landValue t).
    by rewrite with_landValue_id. }
  unfold handleTileClick.
  destruct (negb (gameStarted s)); [done|].
  destruct (_ || _); [done|].
  destruct (lookupTile (grid s) x y) as [cur|] eqn:Hcur; [|done].
  destruct (negb (TileData.explored cur)); [done|].
  destruct (bool_decide_reflect (tool ≠ BNone)) as [Htool|Htool]; simpl.
  - destruct (bool_decide_reflect (TileData.buildingType cur = tool)) as [Hb|Hb].
    + unfold upgradeBranch.
      destruct (Z.leb_spec 3 (TileData.level cur)); [done|].
      destruct (canAfford _ _ _ _); [|done]. simpl.
      rewrite (lookupTile_setTile cur) by done.
      case_decide as Hij; [|eexists; split; [done|];
                            left; exists (TileData.landValue t);
                            by rewrite with_landValue_id].
      destruct Hij as [-> ->]. rewrite Hcur in Ht. injection Ht as ->.
      eexists. split; [done|]. right. left. done.
    + rewrite (bool_decide_eq_false_2 (tool = BNone)) by done.
      unfold buildBranch.
      destruct (bool_decide_reflect (TileData.buildingType cur = BNone)); [|done].
      destruct (_ && _ && _); [done|]. destruct (_ && _); [done|].
      destruct (canAfford _ _ _ _); [|done]. simpl.
      rewrite lookupTile_recompute, (lookupTile_setTile cur) by done.
      destruct (decide (i = x ∧ j = y)) as [[-> ->]|Hij].
      * rewrite Hcur in Ht. injection Ht as ->.
        case_decide; simpl; (eexists; split; [done|]); right; right; right;
          (repeat split; try done); eexists; [done|].
        symmetry. apply with_landValue_id.
      * rewrite Ht. case_decide; simpl; (eexists; split; [done|]); left;
          eexists; [done|]. symmetry. apply with_landValue_id.
  - assert (tool = BNone) as -> by (destruct (decide (tool = BNone)); tauto).
    simpl. unfold demolishBranch.
    destruct (bool_decide (TileData.buildingType cur ≠ BNone)); [|done].
    destruct (5 <=? _); [|done]. simpl.
    rewrite lookupTile_recompute, (lookupTile_setTile cur) by done.
    destruct (decide (i = x ∧ j = y)) as [[-> ->]|Hij].
    * rewrite Hcur in Ht. injection Ht as ->.
      case_decide; simpl; (eexists; split; [done|]); right; right; left;
        (repeat split; try done); eexists; [done|].
      symmetry. apply with_landValue_id.
    * rewrite Ht. case_decide; simpl; (eexists; split; [done|]); left;
        eexists; [done|]. symmetry. apply with_landValue_id.
Qed.

(** ** Revealing *)

Lemma with_explored_id (t : TileData.t) :
  TileData.explored t = true → with_explored true t = t.
Proof. destruct t. simpl. by intros ->. Qed.


Lemma lookupTile_revealStep (gx gy : Z) (g : Grid) (st : CityStats.t) (f : bool)
    (d : Z * Z) (i j : Z) :
  lookupTile (revealStep gx gy (g, st, f) d).1.1 i j =
  if decide ((i - gx, j - gy) = d ∧ inBounds i j = true)
  then with_explored true <$> lookupTile g i j
  else lookupTile g i j.
Proof.
  unfold revealStep. destruct d as [rx ry].
  destruct (decide ((i - gx, j - gy) = (rx, ry) ∧ inBounds i j = true))
    as [[[= <- <-] Hb]|Hn].
  - replace (gx + (i - gx)) with i by lia. replace (gy + (j - gy)) with j by lia.
    rewrite Hb. destruct (lookupTile g i j) as [t|] eqn:Ht; [|done].
    destruct (TileData.explored t) eqn:He; simpl.
    + rewrite Ht. simpl. by rewrite with_explored_id.
    + destruct (_ && _); simpl; rewrite lookupTile_alterTile, decide_True, Ht;
        done.
  - destruct (inBounds (gx + rx) (gy + ry)) eqn:Hb; [|done].
    destruct (lookupTile g (gx + rx) (gy + ry)) as [t|]; [|done].
    destruct (negb (TileData.explored t)); [|done].
    assert (¬ (i = gx + rx ∧ j = gy + ry)).
    { intros [-> ->]. apply Hn. split; [f_equal; lia | done]. }
    destruct (_ && _); simpl; rewrite lookupTile_alterTile, decide_False; done.
Qed.

Lemma lookupTile_reveal_fold (gx gy : Z) (range : list (Z * Z))
    (acc : Grid * CityStats.t * bool) (i j : Z) :
  lookupTile (fold_left (revealStep gx gy) range acc).1.1 i j =
  if decide ((i - gx, j - gy) ∈ range ∧ inBounds i j = true)
  then with_explored true <$> lookupTile acc.1.1 i j
  else lookupTile acc.1.1 i j.
Proof.
  revert acc. induction range as [|d range IH]; intros [[g st] f]; cbn [fold_left].
  - rewrite decide_False; [done|]. intros [H _]. by apply elem_of_nil in H.
  - rewrite IH.
    destruct (revealStep gx gy (g, st, f) d) as [[g1 st1] f1] eqn:Hstep.
    pose proof (lookupTile_revealStep gx gy g st f d i j) as H1.
    rewrite Hstep in H1. simpl in *. rewrite H1.
    destruct (decide ((i - gx, j - gy) ∈ range ∧ inBounds i j = true)) as [[Hin Hb]|Hn].
    + rewrite (decide_True (P := _ ∈ d :: range ∧ _)) by (split; [by right | done]).
      case_decide; [|done]. by destruct (lookupTile g i j).
    + destruct (decide ((i - gx, j - gy) = d ∧ inBounds i j = true)) as [[Hd Hb]|Hn'].
      * rewrite decide_True; [done|]. split; [rewrite Hd; by left | done].
      * rewrite decide_False; [done|]. intros [Hin Hb].
        apply elem_of_cons in Hin as [Hd|Hin]; [apply Hn' | apply Hn]; done.
Qed.

Lemma lookupTile_revealArea (gx gy : Z) (g : Grid) (st : CityStats.t) (i j : Z) :
  lookupTile (revealArea gx gy g st).1.1 i j =
  if decide ((i - gx, j - gy) ∈ revealRange ∧ inBounds i j = true)
  then with_explored true <$> lookupTile g i j
  else lookupTile g i j.
Proof.
  unfold revealArea.
  pose proof (lookupTile_reveal_fold gx gy revealRange (g, st, false) i j) as H.
  by destruct (fold_left _ _ _) as [[ng st'] f].
Qed.

(** A boat tick leaves every tile as it was or marks it explored. *)
Lemma updateBoat_tile (first : Z * Z) (us : list (Z * Z))
    (acc : list Boat.t * Grid * CityStats.t * list NewsItem) (boat : Boat.t)
    (i j : Z) (t : TileData.t) :
  lookupTile acc.1.1.2 i j = Some t →
  ∃ t', lookupTile (updateBoat first us acc boat).1.1.2 i j = Some t'
    ∧ (t' = t ∨ t' = with_explored true t).
Proof.
  destruct acc as [[[done g] st] feed]. simpl. intros Ht.
  unfold updateBoat.
  destruct (_ && _); simpl; [|eauto].
  match goal with
  | |- context [revealArea ?a ?b g st] =>
      pose proof (lookupTile_revealArea a b g st i j) as H;
      destruct (revealArea a b g st) as [[ng st'] found]
  end.
  simpl in *. rewrite H, Ht. case_decide; simpl; eauto.
Qed.

Lemma boatTick_tile (s : Sim) (i j : Z) (t : TileData.t) :
  lookupTile (grid s) i j = Some t →
  ∃ t', lookupTile (grid (boatTick s)) i j = Some t'
    ∧ (t' = t ∨ t' = with_explored true t).
Proof.
  intros Ht. unfold boatTick.
  destruct (boats s) as [|b0 bs0] eqn:Hboats; [eauto|]. rewrite <- Hboats. clear Hboats.
  destruct (filter _ _) as [|first us'] eqn:Hus; [eauto|]. rewrite <- Hus. clear Hus.
  set (us := filter _ _).
  assert (Hfold : ∀ bs acc, (∃ t0, lookupTile acc.1.1.2 i j = Some t0
                               ∧ (t0 = t ∨ t0 = with_explored true t)) →
            ∃ t', lookupTile (fold_left (updateBoat first us) bs acc).1.1.2 i j
                  = Some t' ∧ (t' = t ∨ t' = with_explored true t)).
  { induction bs as [|b bs IH]; intros acc Hacc; [done|].
    cbn [fold_left]. apply IH. destruct Hacc as (t0 & Ht0 & Hrel).
    destruct (updateBoat_tile first us acc b i j t0 Ht0) as (t1 & Ht1 & Hrel1).
    exists t1. split; [done|].
    destruct Hrel as [->| ->], Hrel1 as [->| ->]; auto. }
  specialize (Hfold (boats s) ([], grid s, stats s, newsFeed s)
                ltac:(simpl; eauto)).
  by destruct (fold_left _ _ _) as [[[? ?] ?] ?].
Qed.

Lemma lookupTile_setTile_none (t : TileData.t) (x y : Z) (g : Grid) (i j : Z) :
  lookupTile g i j = None → lookupTile (setTile t x y g) i j = None.
Proof.
  intros Hn. unfold setTile. rewrite lookupTile_alterTile, Hn. by case_decide.
Qed.

Lemma lookupTile_recompute_none (range : list (Z * Z)) (x y : Z) (g : Grid) (i j : Z) :
  lookupTile g i j = None →
  lookupTile (recomputeLandValues range x y g) i j = None.
Proof. intros Hn. rewrite lookupTile_recompute, Hn. by case_decide. Qed.

Lemma handleTileClick_none (now : string) (tool : BuildingType) (x y : Z)
    (s : Sim) (i j : Z) :
  lookupTile (grid s) i j = None →
  lookupTile (grid (handleTileClick now tool x y s)) i j = None.
Proof.
  intros Hn. unfold handleTileClick.
  destruct (negb (gameStarted s)); [done|].
  destruct (_ || _); [done|].
  destruct (lookupTile (grid s) x y) as [cur|]; [|done].
  destruct (negb (TileData.explored cur)); [done|].
  destruct (_ && _).
  - unfold upgradeBranch.
    destruct (3 <=? _); [done|]. destruct (canAfford _ _ _ _); [|done].
    by apply lookupTile_setTile_none.
  - destruct (bool_decide (tool = BNone)).
    + unfold demolishBranch.
      destruct (bool_decide _); [|done]. destruct (5 <=? _); [|done].
      by apply lookupTile_recompute_none, lookupTile_setTile_none.
    + unfold buildBranch.
      destruct (bool_decide _); [|done].
      destruct (_ && _ && _); [done|]. destruct (_ && _); [done|].
      destruct (canAfford _ _ _ _); [|done].
      by apply lookupTile_recompute_none, lookupTile_setTile_none.
Qed.

Lemma boatTick_none (s : Sim) (i j : Z) :
  lookupTile (grid s) i j = None → lookupTile (grid (boatTick s)) i j = None.
Proof.
  intros Hn. unfold boatTick.
  destruct (boats s) as [|b0 bs0] eqn:Hboats; [done|]. rewrite <- Hboats. clear Hboats.
  destruct (filter _ _) as [|first us'] eqn:Hus; [done|]. rewrite <- Hus. clear Hus.
  set (us := filter _ _).
  assert (Hfold : ∀ bs acc, lookupTile acc.1.1.2 i j = None →
            lookupTile (fold_left (updateBoat first us) bs acc).1.1.2 i j
            = None).
  { induction bs as [|b bs IH]; intros acc Hacc; [done|].
    cbn [fold_left]. apply IH. destruct acc as [[[done g] st] feed].
    simpl in *. unfold updateBoat. destruct (_ && _); simpl; [|done].
    match goal with
    | |- context [revealArea ?a ?b g st] =>
        pose proof (lookupTile_revealArea a b g st i j) as H;
        destruct (revealArea a b g st) as [[ng st'] found]
    end.
    simpl in *. rewrite H, Hacc. by case_decide. }
  specialize (Hfold (boats s) ([], grid s, stats s, newsFeed s) Hn).
  by destruct (fold_left _ _ _) as [[[? ?] ?] ?].
Qed.

Lemma execute_none (c : Command) (s : Sim) (i j : Z) :
  lookupTile (grid s) i j = None → lookupTile (grid (execute s c)) i j = None.
Proof.
  intros Hn. destruct c as [now tool x y|id| |r|r|]; cbn [execute].
  - by apply handleTileClick_none.
  - done.
  - done.
  - by destruct (gameStarted s).
  - destruct (gameStarted s); [|done].
    unfold enemyTick. by destruct (mapEnemies _ _ _ _).
  - destruct (gameStarted s); [|done]. by apply boatTick_none.
Qed.

(** C6, amended.  On a grid whose levels lie between 1 and 3 and are 1 on
    empty tiles, every command keeps it so; along a command the level of a
    tile stays the same, or goes up by one when the command is a click on
    that tile with the tool of its building, or is 1 when the command is a
    demolition click on that tile; and a click with the tool of the
    building on a tile at level 3 or more changes neither grid nor ledger
    nor agents. *)
Theorem levels_bounded_and_reset_by_demolition (c : Command) (s : Sim) :
  levelsOk (grid s) →
  levelsOk (grid (execute s c))
  ∧ (∀ x y t, lookupTile (grid s) x y = Some t →
       ∃ t', lookupTile (grid (execute s c)) x y = Some t'
         ∧ (TileData.level t' = TileData.level t
            ∨ ((∃ now, c = TileClick now (TileData.buildingType t) x y)
               ∧ TileData.buildingType t ≠ BNone
               ∧ TileData.level t' = TileData.level t + 1)
            ∨ ((∃ now, c = TileClick now BNone x y)
               ∧ TileData.level t' = 1)))
  ∧ (∀ now tool x y t,
       c = TileClick now tool x y → tool ≠ BNone →
       lookupTile (grid s) x y = Some t →
       TileData.buildingType t = tool → 3 <= TileData.level t →
       unchanged s (execute s c)).
Proof.
  intros Hok.
  assert (Hstep : ∀ i j t, lookupTile (grid s) i j = Some t →
       ∃ t', lookupTile (grid (execute s c)) i j = Some t'
         ∧ tileLevelOk t'
         ∧ (TileData.level t' = TileData.level t
            ∨ ((∃ now, c = TileClick now (TileData.buildingType t) i j)
               ∧ TileData.buildingType t ≠ BNone
               ∧ TileData.level t' = TileData.level t + 1)
            ∨ ((∃ now, c = TileClick now BNone i j)
               ∧ TileData.level t' = 1))).
  { intros i j t Ht. pose proof (Hok _ _ _ Ht) as [Hl Hn].
    assert (Hid : ∀ g, g = grid s → ∃ t', lookupTile g i j = Some t'
         ∧ tileLevelOk t'
         ∧ (TileData.level t' = TileData.level t
            ∨ ((∃ now, c = TileClick now (TileData.buildingType t) i j)
               ∧ TileData.buildingType t ≠ BNone
               ∧ TileData.level t' = TileData.level t + 1)
            ∨ ((∃ now, c = TileClick now BNone i j)
               ∧ TileData.level t' = 1)))
      by (intros g ->; exists t; split; [done|]; split; [by split | by left]).
    destruct c as [now tool x y|id| |r|r|]; cbn [execute].
    - destruct (handleTileClick_tile now tool x y s i j t Ht)
        as (t' & Ht' & [[v ->]|[(-> & -> & Htool & Hb & Hlt & ->)
                      |[(-> & -> & -> & v & ->)|(-> & -> & Htool & Hb & v & ->)]]]);
        (eexists; split; [exact Ht'|]); unfold tileLevelOk; simpl.
      + auto.
      + split; [split; [lia | congruence]|].
        right. left. rewrite Hb. eauto.
      + split; [split; [lia | done]|]. right. right. eauto.
      + split; [split; [lia | done]|]. left. symmetry. auto.
    - by apply Hid.
    - by apply Hid.
    - destruct (gameStarted s); by apply Hid.
    - destruct (gameStarted s); [|by apply Hid]. apply Hid.
      unfold enemyTick. by destruct (mapEnemies _ _ _ _).
    - destruct (gameStarted s); [|by apply Hid].
      destruct (boatTick_tile s i j t Ht) as (t' & Ht' & [->| ->]);
        (eexists; split; [exact Ht'|]); unfold tileLevelOk; simpl; auto. }
  split; [|split].
  - intros x y t' Ht'.
    destruct (lookupTile (grid s) x y) as [t|] eqn:Ht.
    + destruct (Hstep x y t Ht) as (t'' & Ht'' & Hok' & _). congruence.
    + apply (execute_none c) in Ht. congruence.
  - intros x y t Ht. destruct (Hstep x y t Ht) as (t' & Ht' & _ & H). eauto.
  - intros now tool x y t -> Htool Ht Hb Hl. cbn [execute].
    unfold handleTileClick. rewrite Ht.
    destruct (negb (gameStarted s)); [apply unchanged_refl|].
    destruct (_ || _); [apply unchanged_refl|].
    destruct (negb (TileData.explored t)); [apply unchanged_refl|].
    rewrite (bool_decide_eq_true_2 (tool ≠ BNone)) by done.
    rewrite (bool_decide_eq_true_2 (TileData.buildingType t = tool)) by done.
    simpl. unfold upgradeBranch.
    rewrite (proj2 (Z.leb_le 3 (TileData.level t))) by done.
    apply unchanged_pushNews.
Qed.

Lemma levels_bounded_and_reset_by_demolition_witness :
  levelAt (grid maxedParkSim) 5 5 = Some 3
  ∧ unchanged maxedParkSim (execute maxedParkSim (TileClick "b" Park 5 5)).
Proof.
  assert (Hg : levelsOk (grid maxedParkSim)) by (apply levelsOk_check; reflexivity).
  destruct (levels_bounded_and_reset_by_demolition
              (TileClick "b" Park 5 5) maxedParkSim Hg) as (_ & _ & H).
  split; [reflexivity|].
  eapply H; [reflexivity | done | reflexivity | reflexivity | simpl; lia].
Defined.

(** ** Revealing: rewards and idempotence *)









(** * Further properties *)

(** ** Outcomes of a click *)

Ltac click_noop := split; [done|]; split; [done|]; left; repeat split.

(** Every click either leaves grid, ledger and boats alone, or is one of
    the three accepted transactions on the clicked tile. *)
Lemma handleTileClick_outcome (now : string) (tool : BuildingType) (x y : Z) (s : Sim) :
  let s' := handleTileClick now tool x y s in
  gameStarted s' = gameStarted s ∧ enemies s' = enemies s
  ∧ ((grid s' = grid s ∧ stats s' = stats s ∧ boats s' = boats s)
     ∨ ∃ cur, gameStarted s = true ∧ inBounds x y = true
         ∧ lookupTile (grid s) x y = Some cur ∧ TileData.explored cur = true
         ∧ ((tool ≠ BNone ∧ TileData.buildingType cur = tool
             ∧ TileData.level cur < 3
             ∧ canAfford (stats s) (upgradeCosts tool cur).1.1
                 (upgradeCosts tool cur).1.2 (upgradeCosts tool cur).2 = true
             ∧ grid s' = setTile (with_level (TileData.level cur + 1) cur) x y (grid s)
             ∧ stats s' = debit (upgradeCosts tool cur).1.1
                            (upgradeCosts tool cur).1.2
                            (upgradeCosts tool cur).2 (stats s)
             ∧ boats s' = boats s
             ∧ newsFeed s' = addNewsItem
                 (NewsUpgraded tool (TileData.level cur + 1)) (newsFeed s))
            ∨ (tool = BNone ∧ TileData.buildingType cur ≠ BNone
               ∧ 5 <= CityStats.money (stats s)
               ∧ grid s' = recomputeLandValues demolishRange x y
                             (setTile (with_building BNone 1 cur) x y (grid s))
               ∧ stats s' =
                 (if bool_decide (TileData.resourceType cur = Forest)
                  then addWood 10 (debit 5 0 0 (stats s))
                  else debit 5 0 0 (stats s))
               ∧ boats s' = boats s ∧ newsFeed s' = newsFeed s)
            ∨ (tool ≠ BNone ∧ TileData.buildingType cur = BNone
               ∧ TileData.buildingType cur ≠ tool
               ∧ waterRule tool (TileData.resourceType cur) = true
               ∧ canAfford (stats s) (costMoney (BUILDINGS tool))
                   (costWood (BUILDINGS tool)) (costStone (BUILDINGS tool)) = true
               ∧ grid s' = recomputeLandValues buildRange x y
                             (setTile (with_building tool 1 cur) x y (grid s))
               ∧ stats s' = debit (costMoney (BUILDINGS tool))
                              (costWood (BUILDINGS tool))
                              (costStone (BUILDINGS tool)) (stats s)
               ∧ boats s' =
                 (if bool_decide (tool = Port)
                  then boats s ++ [Boat.mk now (inject_Z x) (inject_Z y) None None idle]
                  else boats s)
               ∧ newsFeed s' = newsFeed s))).
Proof.
  cbv zeta. unfold handleTileClick.
  destruct (gameStarted s) eqn:Hstart; cbn [negb]; [|click_noop].
  rewrite outOfBounds_inBounds.
  destruct (inBounds x y) eqn:Hb; cbn [negb]; [|rewrite ?Hstart; click_noop].
  destruct (lookupTile (grid s) x y) as [cur|] eqn:Hcur; [|rewrite ?Hstart; click_noop].
  destruct (TileData.explored cur) eqn:He; cbn [negb]; [|rewrite ?Hstart; click_noop].
  destruct (bool_decide_reflect (tool ≠ BNone)) as [Htool|Htool]; cbn [andb].
  - destruct (bool_decide_reflect (TileData.buildingType cur = tool)) as [Hsame|Hsame].
    + unfold upgradeBranch.
      destruct (Z.leb_spec 3 (TileData.level cur)); [click_noop|].
      destruct (canAfford _ _ _ _) eqn:Hafford; [|click_noop].
      split; [done|]. split; [done|]. right. exists cur.
      do 4 (split; [done|]). left. by repeat split.
    + rewrite (bool_decide_eq_false_2 (tool = BNone)) by done.
      unfold buildBranch.
      destruct (bool_decide_reflect (TileData.buildingType cur = BNone)) as [Hempty|];
        [|click_noop].
      destruct (bool_decide (TileData.resourceType cur = Water)
                && bool_decide (tool ≠ Port) && bool_decide (tool ≠ Road)) eqn:E1;
        [click_noop|].
      destruct (bool_decide (tool = Port)
                && bool_decide (TileData.resourceType cur ≠ Water)) eqn:E2;
        [click_noop|].
      assert (Hwater : waterRule tool (TileData.resourceType cur) = true).
      { unfold waterRule. repeat rewrite bool_decide_not in E1.
        repeat rewrite bool_decide_not in E2.
        destruct (bool_decide (TileData.resourceType cur = Water)),
          (bool_decide (tool = Port)), (bool_decide (tool = Road));
          simpl in *; congruence. }
      destruct (canAfford _ _ _ _) eqn:Hafford; [|click_noop].
      split; [done|]. split; [done|]. right. exists cur.
      do 4 (split; [done|]). right. right. by repeat split.
  - assert (tool = BNone) as -> by (destruct (decide (tool = BNone)); tauto).
    rewrite bool_decide_eq_true_2 by done. unfold demolishBranch.
    destruct (bool_decide_reflect (TileData.buildingType cur ≠ BNone)); [|click_noop].
    destruct (Z.leb_spec 5 (CityStats.money (stats s))); [|click_noop].
    split; [done|]. split; [done|]. right. exists cur.
    do 4 (split; [done|]). right. left.
    by repeat split.
Qed.





(** X3.  Clicks that are ignored.  Before the game has started, off the
    grid, or on a tile that is not explored, a click with any tool returns
    the state it was given: no debit, no grid change, no notification. *)
Theorem click_ignored (now : string) (tool : BuildingType) (x y : Z) (s : Sim) :
  gameStarted s = false ∨ inBounds x y = false
  ∨ (∃ t, lookupTile (grid s) x y = Some t ∧ TileData.explored t = false) →
  handleTileClick now tool x y s = s.
Proof.
  intros H. unfold handleTileClick. rewrite outOfBounds_inBounds.
  destruct (gameStarted s); cbn [negb]; [|done].
  destruct (inBounds x y); cbn [negb]; [|done].
  destruct H as [H|[H|(t & Ht & He)]]; try done.
  by rewrite Ht, He.
Qed.

Lemma click_ignored_witness :
  handleTileClick "b" Road 20 3 plainSim = plainSim
  ∧ handleTileClick "b" Road 3 3 (initialSim plainGrid) = initialSim plainGrid.
Proof.
  split.
  - apply click_ignored. right. left. reflexivity.
  - apply click_ignored. left. reflexivity.
Defined.

(** ** Upgrade costs *)

(** X4.  The upgrade cost in integers.  For a level that is not negative,
    [Math.floor(cost * Math.pow(1.5, level))] is the integer quotient of
    [cost * 3^level] by [2^level]; so an upgrade never costs less than the
    building did. *)
Theorem upgradeCost_closed_form (cost level : Z) :
  0 <= level →
  upgradeCost cost level = (cost * 3 ^ level) / 2 ^ level
  ∧ (0 <= cost → cost <= upgradeCost cost level).
Proof.
  intros Hl.
  assert (Heq : upgradeCost cost level = (cost * 3 ^ level) / 2 ^ level).
  { unfold upgradeCost, UPGRADE_MULTIPLIER.
    destruct level as [|p|p]; [|clear Hl|lia].
    - cbn. change (Z.pos (1 * 1)) with 1. change (3 ^ 0) with 1.
      change (2 ^ 0) with 1. done.
    - cbn [Qpower]. rewrite Qpower_decomp_positive.
      unfold Qfloor, Qmult, inject_Z. cbn [Qnum Qden].
      rewrite Pos2Z.inj_mul, Pos2Z.inj_pow, Z.mul_1_l.
      change 15 with (3 * 5). change (Z.pos 10) with (2 * 5).
      rewrite !Z.pow_mul_l, Z.mul_assoc.
      apply Z.div_mul_cancel_r; apply Z.pow_nonzero; lia. }
  split; [exact Heq|]. intros Hc. rewrite Heq.
  assert (0 < 2 ^ level) by (apply Z.pow_pos_nonneg; lia).
  apply Z.div_le_lower_bound; [done|].
  rewrite (Z.mul_comm (2 ^ level)). apply Z.mul_le_mono_nonneg_l; [done|].
  apply Z.pow_le_mono_l. lia.
Qed.

Lemma upgradeCost_closed_form_witness :
  upgradeCost 50 2 = 112 ∧ 50 <= upgradeCost 50 2.
Proof.
  destruct (upgradeCost_closed_form 50 2 ltac:(lia)) as [H1 H2].
  split; [rewrite H1; reflexivity | apply H2; lia].
Defined.

(** ** The shape of the grid *)

Lemma alterTile_wf (f : TileData.t → TileData.t) (x y : Z) (g : Grid) :
  wf_grid g → wf_grid (alterTile f x y g).
Proof.
  intros [Hlen Hrows]. unfold alterTile. destruct (_ && _); [|done].
  split; [by rewrite length_alter|].
  apply Forall_alter; [done|]. intros row _ Hrow. by rewrite length_alter.
Qed.

Lemma recompute_wf (range : list (Z * Z)) (x y : Z) (g : Grid) :
  wf_grid g → wf_grid (recomputeLandValues range x y g).
Proof.
  unfold recomputeLandValues. revert g.
  induction range as [|d range IH]; intros g Hwf; [done|].
  cbn [fold_left]. apply IH. unfold recomputeStep.
  destruct (inBounds _ _); [by apply alterTile_wf | done].
Qed.

Lemma revealStep_wf (gx gy : Z) (acc : Grid * CityStats.t * bool) (d : Z * Z) :
  wf_grid acc.1.1 → wf_grid (revealStep gx gy acc d).1.1.
Proof.
  destruct acc as [[g st] f]. destruct d as [rx ry]. unfold revealStep.
  cbn [fst snd]. intros Hwf.
  destruct (inBounds _ _); [|done].
  destruct (lookupTile _ _ _) as [t|]; [|done].
  destruct (negb (TileData.explored t)); [|done].
  destruct (_ && _); cbn [fst snd]; by apply alterTile_wf.
Qed.

Lemma revealArea_wf (gx gy : Z) (g : Grid) (st : CityStats.t) :
  wf_grid g → wf_grid (revealArea gx gy g st).1.1.
Proof.
  intros Hwf. unfold revealArea.
  assert (H : ∀ range acc, wf_grid acc.1.1 →
            wf_grid (fold_left (revealStep gx gy) range acc).1.1).
  { induction range as [|d range IH]; intros acc Hacc; [done|].
    cbn [fold_left]. apply IH. by apply revealStep_wf. }
  specialize (H revealRange (g, st, false) Hwf).
  by destruct (fold_left _ _ _) as [[ng st'] f].
Qed.

(** A property of the grid that every reveal keeps is kept by the boat
    ticker. *)
Lemma boatTick_grid_ind (P : Grid → Prop) (s : Sim) :
  (∀ gx gy g st, P g → P (revealArea gx gy g st).1.1) →
  P (grid s) → P (grid (boatTick s)).
Proof.
  intros Hreveal Hs. unfold boatTick.
  destruct (boats s) as [|b0 bs0] eqn:Hboats; [done|]. rewrite <- Hboats. clear Hboats.
  destruct (filter _ _) as [|first us'] eqn:Hus; [done|]. rewrite <- Hus. clear Hus.
  set (us := filter _ _).
  assert (Hfold : ∀ bs acc, P acc.1.1.2 →
            P (fold_left (updateBoat first us) bs acc).1.1.2).
  { induction bs as [|b bs IH]; intros acc Hacc; [done|].
    cbn [fold_left]. apply IH. destruct acc as [[[done g] st] feed].
    cbn [fst snd] in *. unfold updateBoat.
    destruct (_ && _); cbn [fst snd]; [|done].
    match goal with
    | |- context [revealArea ?a ?b g st] =>
        pose proof (Hreveal a b g st Hacc) as H;
        destruct (revealArea a b g st) as [[ng st'] found]
    end.
    done. }
  specialize (Hfold (boats s) ([], grid s, stats s, newsFeed s) Hs).
  by destruct (fold_left _ _ _) as [[[? ?] ?] ?].
Qed.

Lemma execute_wf (c : Command) (s : Sim) :
  wf_grid (grid s) → wf_grid (grid (execute s c)).
Proof.
  intros Hwf. destruct c as [now tool x y|id| |r|r|]; cbn [execute].
  - destruct (handleTileClick_outcome now tool x y s)
      as (_ & _ & [(-> & _)|(cur & _ & _ & _ & _ &
            [(_ & _ & _ & _ & -> & _)|[(_ & _ & _ & -> & _)
            |(_ & _ & _ & _ & _ & -> & _)]])]); [done|..].
    + by apply alterTile_wf.
    + by apply recompute_wf, alterTile_wf.
    + by apply recompute_wf, alterTile_wf.
  - done.
  - done.
  - by destruct (gameStarted s).
  - destruct (gameStarted s); [|done].
    unfold enemyTick. by destruct (mapEnemies _ _ _ _).
  - destruct (gameStarted s); [|done].
    apply boatTick_grid_ind; [|done]. intros. by apply revealArea_wf.
Qed.

Lemma sameTerrain_refl (t : TileData.t) : sameTerrain t t.
Proof. by repeat split. Qed.

Lemma execute_terrain (c : Command) (s : Sim) (i j : Z) (t : TileData.t) :
  lookupTile (grid s) i j = Some t →
  ∃ t', lookupTile (grid (execute s c)) i j = Some t' ∧ sameTerrain t t'.
Proof.
  intros Ht.
  assert (Hid : ∀ g, g = grid s →
            ∃ t', lookupTile g i j = Some t' ∧ sameTerrain t t')
    by (intros g ->; exists t; split; [done | apply sameTerrain_refl]).
  destruct c as [now tool x y|id| |r|r|]; cbn [execute].
  - destruct (handleTileClick_tile now tool x y s i j t Ht)
      as (t' & Ht' & [[v ->]|[(_ & _ & _ & _ & _ & ->)
                    |[(_ & _ & _ & v & ->)|(_ & _ & _ & _ & v & ->)]]]);
      (eexists; split; [exact Ht'|]; by repeat split).
  - by apply Hid.
  - by apply Hid.
  - destruct (gameStarted s); by apply Hid.
  - destruct (gameStarted s); [|by apply Hid]. apply Hid.
    unfold enemyTick. by destruct (mapEnemies _ _ _ _).
  - destruct (gameStarted s); [|by apply Hid].
    destruct (boatTick_tile s i j t Ht) as (t' & Ht' & [->| ->]);
      (eexists; split; [exact Ht'|]); by repeat split.
Qed.

(** X5.  Grid shape and terrain.  Every command keeps the grid 20 by 20,
    and keeps, for every position of the grid, the coordinates, the
    resource and the variant stored in its tile; a tile that is explored
    stays explored. *)
Theorem grid_shape_and_terrain_persist (c : Command) (s : Sim) :
  wf_grid (grid s) →
  wf_grid (grid (execute s c))
  ∧ (∀ i j, inBounds i j = true →
       ∃ t t', lookupTile (grid s) i j = Some t
         ∧ lookupTile (grid (execute s c)) i j = Some t'
         ∧ sameTerrain t t').
Proof.
  intros Hwf. split; [by apply execute_wf|].
  intros i j Hb. destruct (wf_grid_lookup _ _ _ Hwf Hb) as [t Ht].
  destruct (execute_terrain c s i j t Ht) as (t' & Ht' & Hsame).
  by exists t, t'.
Qed.

Lemma grid_shape_and_terrain_persist_witness :
  wf_grid (grid (execute plainSim (TileClick "b" Park 5 5))).
Proof.
  apply (grid_shape_and_terrain_persist (TileClick "b" Park 5 5) plainSim).
  apply plainGrid_wf.
Defined.

(** ** Land values under commands *)

Lemma wf_grid_lookup_inBounds (g : Grid) (x y : Z) (t : TileData.t) :
  wf_grid g → lookupTile g x y = Some t → inBounds x y = true.
Proof.
  intros [Hlen Hrows] Ht. unfold lookupTile in Ht.
  destruct (0 <=? x) eqn:Hx, (0 <=? y) eqn:Hy; try done. cbn [andb] in Ht.
  destruct (g !! Z.to_nat y) as [row|] eqn:Hrow; [|done]. cbn in Ht.
  apply lookup_lt_Some in Ht. pose proof (lookup_lt_Some _ _ _ Hrow) as Hy'.
  rewrite Forall_lookup in Hrows. rewrite (Hrows _ _ Hrow) in Ht.
  unfold inBounds, GRID_SIZE in *.
  apply andb_true_iff; split; [apply andb_true_iff; split;
    [apply andb_true_iff; split|]|]; lia.
Qed.


(** [calculateLandValue] at [(x, y)] reads the eight neighbours only. *)
Lemma calculateLandValue_ext_local (g g' : Grid) (x y : Z) :
  (∀ d, d ∈ neighbors →
     tileKey <$> lookupTile g (x + d.1) (y + d.2)
     = tileKey <$> lookupTile g' (x + d.1) (y + d.2)) →
  calculateLandValue g x y = calculateLandValue g' x y.
Proof.
  intros Hkey. unfold calculateLandValue. do 2 f_equal.
  revert Hkey. generalize 1.0%Q. generalize neighbors.
  induction l as [|d l IH]; intros v Hkey; [done|].
  cbn [fold_left]. rewrite IH by (intros d' Hd'; apply Hkey; by right).
  f_equal. unfold landValueStep.
  destruct (inBounds (x + d.1) (y + d.2)); [|done].
  specialize (Hkey d ltac:(left)).
  destruct (lookupTile g _ _), (lookupTile g' _ _); cbn in Hkey; try done.
  apply landValueTile_key. congruence.
Qed.

Lemma neighbors_close (d : Z * Z) :
  d ∈ neighbors → -1 <= d.1 <= 1 ∧ -1 <= d.2 <= 1.
Proof.
  unfold neighbors. rewrite !elem_of_cons, elem_of_nil.
  intros H. repeat destruct H as [H|H]; try done; subst d; cbn; lia.
Qed.

(** X6.  A build keeps the land values current.  On a full grid whose
    stored land values all agree with [calculateLandValue], a click with a
    building tool on a tile that does not hold that building already
    leaves a grid whose stored land values all agree with
    [calculateLandValue] again. *)
Theorem build_keeps_land_values_current (now : string) (tool : BuildingType)
    (x y : Z) (s : Sim) :
  wf_grid (grid s) →
  landValuesCurrent (grid s) →
  tool ≠ BNone →
  (∀ t, lookupTile (grid s) x y = Some t → TileData.buildingType t ≠ tool) →
  landValuesCurrent (grid (handleTileClick now tool x y s)).
Proof.
  intros Hwf Hcur Htool Hnot.
  destruct (handleTileClick_outcome now tool x y s)
    as (_ & _ & [(-> & _)|(cur & _ & Hb & Hlook & _ &
          [(_ & Hsame & _)|[(-> & _)
          |(_ & Hempty & _ & _ & _ & -> & _)]])]); [done|..].
  - by destruct (Hnot cur Hlook).
  - done.
  - intros i j t'. rewrite calculateLandValue_recompute, lookupTile_recompute.
    set (g1 := setTile (with_building tool 1 cur) x y (grid s)).
    destruct (decide ((i - x, j - y) ∈ buildRange ∧ inBounds i j = true))
      as [[Hin Hb']|Hn].
    + destruct (lookupTile g1 i j) as [t1|]; [|done].
      intros [= <-]. done.
    + unfold g1 at 1. rewrite (lookupTile_setTile cur) by done.
      assert (Hfar : ¬ (-1 <= i - x <= 1 ∧ -1 <= j - y <= 1) ∨ inBounds i j = false).
      { destruct (inBounds i j); [|by right]. left. intros H. apply Hn.
        split; [by apply buildRange_spec | done]. }
      rewrite decide_False
        by (intros [-> ->]; destruct Hfar as [H|H]; [apply H; lia | congruence]).
      intros Ht'. rewrite (Hcur i j t' Ht').
      pose proof (wf_grid_lookup_inBounds _ _ _ _ Hwf Ht') as Hbij.
      destruct Hfar as [Hfar|Hfar]; [|congruence].
      rewrite (calculateLandValue_ext_local (grid s) g1); [done|].
      intros d Hd. apply neighbors_close in Hd.
      unfold g1, setTile. rewrite lookupTile_alterTile.
      rewrite decide_False; [done|]. intros [Hx Hy]. apply Hfar. lia.
Qed.

Lemma inBounds_spec (x y : Z) :
  inBounds x y = true ↔ 0 <= x < GRID_SIZE ∧ 0 <= y < GRID_SIZE.
Proof.
  unfold inBounds. rewrite !andb_true_iff, !Z.leb_le, !Z.ltb_lt. tauto.
Qed.

Lemma coordinates_spec (x y : Z) :
  (x, y) ∈ coordinates ↔ inBounds x y = true.
Proof.
  rewrite inBounds_spec. unfold coordinates. rewrite list_elem_of_bind. split.
  - intros (j & Hin & Hj). apply list_elem_of_bind in Hin as (i & Hin & Hi).
    apply list_elem_of_singleton in Hin as [= -> ->].
    apply elem_of_seqZ in Hi, Hj. lia.
  - intros [Hx Hy]. exists y. split; [|apply elem_of_seqZ; lia].
    apply list_elem_of_bind. exists x. split; [by left | apply elem_of_seqZ; lia].
Qed.

Lemma plainGrid_current : landValuesCurrent plainGrid.
Proof.
  intros i j t Ht.
  pose proof (wf_grid_lookup_inBounds _ _ _ _ plainGrid_wf Ht) as Hb.
  assert (Hall : allLandValuesCurrent plainGrid = true) by (vm_compute; done).
  unfold allLandValuesCurrent in Hall. rewrite forallb_forall in Hall.
  apply coordinates_spec, list_elem_of_In in Hb.
  specialize (Hall _ Hb). unfold landValueCurrent in Hall. cbn [fst snd] in Hall.
  rewrite Ht in Hall. by apply Qeq_bool_iff.
Qed.

Lemma build_keeps_land_values_current_witness :
  landValuesCurrent (grid (handleTileClick "b" Park 5 5 plainSim)).
Proof.
  apply build_keeps_land_values_current;
    [apply plainGrid_wf | apply plainGrid_current | done |].
  intros t [= <-]. done.
Defined.

(** ** Invariants of the grid *)





(** ** Ledger effects of the agents *)

Lemma gained_refl (st : CityStats.t) : gained st st.
Proof. unfold gained. repeat split; lia. Qed.

Lemma gained_trans (st1 st2 st3 : CityStats.t) :
  gained st1 st2 → gained st2 st3 → gained st1 st3.
Proof.
  unfold gained. intros (?&?&?&?&?&?&?&?) (?&?&?&?&?&?&?&?).
  repeat split; (lia || congruence).
Qed.

Lemma revealStep_gained (gx gy : Z) (g : Grid) (st : CityStats.t) (f : bool)
    (d : Z * Z) :
  gained st (revealStep gx gy (g, st, f) d).1.2.
Proof.
  unfold revealStep. destruct d as [rx ry].
  destruct (inBounds _ _); [|apply gained_refl].
  destruct (lookupTile _ _ _) as [t|]; [|apply gained_refl].
  destruct (negb (TileData.explored t)); [|apply gained_refl].
  destruct (_ && _); [|apply gained_refl].
  cbn [fst snd]. unfold gained, addWood, addStone, debit.
  repeat case_bool_decide; cbn; repeat split; lia.
Qed.

Lemma revealArea_gained (gx gy : Z) (g : Grid) (st : CityStats.t) :
  gained st (revealArea gx gy g st).1.2.
Proof.
  unfold revealArea.
  assert (H : ∀ range acc, gained st acc.1.2 →
            gained st (fold_left (revealStep gx gy) range acc).1.2).
  { induction range as [|d range IH]; intros [[g1 st1] f1] Hacc; [done|].
    cbn [fold_left]. apply IH. eapply gained_trans; [exact Hacc|].
    apply revealStep_gained. }
  specialize (H revealRange (g, st, false) (gained_refl st)).
  destruct (fold_left _ _ _) as [[ng st'] f]. cbn [fst snd] in *.
  destruct f; [|done]. eapply gained_trans; [exact H|].
  unfold gained, addMoney, debit. cbn. repeat split; lia.
Qed.

(** A property of the ledger that every reveal keeps is kept by the boat
    ticker. *)
Lemma boatTick_stats_ind (P : CityStats.t → Prop) (s : Sim) :
  (∀ gx gy g st, P st → P (revealArea gx gy g st).1.2) →
  P (stats s) → P (stats (boatTick s)).
Proof.
  intros Hreveal Hs. unfold boatTick.
  destruct (boats s) as [|b0 bs0] eqn:Hboats; [done|]. rewrite <- Hboats. clear Hboats.
  destruct (filter _ _) as [|first us'] eqn:Hus; [done|]. rewrite <- Hus. clear Hus.
  set (us := filter _ _).
  assert (Hfold : ∀ bs acc, P acc.1.2 →
            P (fold_left (updateBoat first us) bs acc).1.2).
  { induction bs as [|b bs IH]; intros acc Hacc; [done|].
    cbn [fold_left]. apply IH. destruct acc as [[[done g] st] feed].
    cbn [fst snd] in *. unfold updateBoat.
    destruct (_ && _); cbn [fst snd]; [|done].
    match goal with
    | |- context [revealArea ?a ?b g st] =>
        pose proof (Hreveal a b g st Hacc) as H;
        destruct (revealArea a b g st) as [[ng st'] found]
    end.
    done. }
  specialize (Hfold (boats s) ([], grid s, stats s, newsFeed s) Hs).
  by destruct (fold_left _ _ _) as [[[? ?] ?] ?].
Qed.

Lemma boatTick_gained (s : Sim) : gained (stats s) (stats (boatTick s)).
Proof.
  apply (boatTick_stats_ind (gained (stats s))); [|apply gained_refl].
  intros gx gy g st H. eapply gained_trans; [exact H|]. apply revealArea_gained.
Qed.

Lemma robbed_refl (st : CityStats.t) : robbed 0 st st.
Proof. unfold robbed. repeat split; lia. Qed.

Lemma robbed_theft (st : CityStats.t) : robbed 1 st (theft st).
Proof. unfold robbed, theft. cbn. repeat split; lia. Qed.

Lemma robbed_trans (a b : Z) (st1 st2 st3 : CityStats.t) :
  0 <= a → 0 <= b →
  robbed a st1 st2 → robbed b st2 st3 → robbed (a + b) st1 st3.
Proof.
  unfold robbed.
  intros Ha Hb (Hm1 & Hf1 & ?&?&?&?&?&?) (Hm2 & Hf2 & ?&?&?&?&?&?).
  split; [|split; [|repeat split; congruence]].
  - intros Hpos. destruct (Hm1 Hpos) as [[? ?] ?].
    destruct (Hm2 ltac:(lia)) as [[? ?] ?]. lia.
  - intros Hpos. destruct (Hf1 Hpos) as [[? ?] ?].
    destruct (Hf2 ltac:(lia)) as [[? ?] ?]. lia.
Qed.

Lemma robbed_mono (a b : Z) (st st' : CityStats.t) :
  a <= b → robbed a st st' → robbed b st st'.
Proof.
  unfold robbed. intros Hab (Hm & Hf & ?).
  split; [|split; [|done]].
  - intros Hpos. destruct (Hm Hpos) as [[? ?] ?]. lia.
  - intros Hpos. destruct (Hf Hpos) as [[? ?] ?]. lia.
Qed.

Lemma mapEnemies_robbed (g : Grid) (rolls : list Q) (es : list Enemy.t)
    (st : CityStats.t) :
  robbed (Z.of_nat (length es)) st (mapEnemies g rolls es st).2.
Proof.
  revert rolls st. induction es as [|e es IH]; intros rolls st.
  - apply robbed_refl.
  - cbn [mapEnemies length].
    destruct (updateEnemy g (hd 0%Q rolls) e) as [e' stole].
    specialize (IH (tl rolls) (if stole then theft st else st)).
    destruct (mapEnemies g (tl rolls) es _) as [rest st'].
    cbn [fst snd] in *.
    replace (Z.of_nat (S (length es))) with (1 + Z.of_nat (length es)) by lia.
    eapply robbed_trans; [lia | lia | | exact IH].
    destruct stole; [apply robbed_theft|].
    eapply robbed_mono; [|apply robbed_refl]. lia.
Qed.

(** X7.  What an enemy tick does to the ledger.  With [n] agents taking
    their turn, money drops by at most [10 * n] and food by at most
    [5 * n], neither goes below zero when it was not, and wood, stone,
    population, day, era and weather are untouched; the grid and the
    boats are untouched as well. *)
Theorem enemy_tick_ledger (r : EnemyRolls) (s : Sim) :
  robbed (Z.of_nat (length (enemiesAtTick r s))) (stats s) (stats (enemyTick r s))
  ∧ grid (enemyTick r s) = grid s
  ∧ boats (enemyTick r s) = boats s.
Proof.
  unfold enemyTick. fold (enemiesAtTick r s).
  pose proof (mapEnemies_robbed (grid s) (stealRolls r) (enemiesAtTick r s) (stats s))
    as H.
  destruct (mapEnemies _ _ _ _) as [es st]. cbn [fst snd stats grid boats] in *.
  split; [exact H|]. by split.
Qed.

(** X8.  What a boat tick does.  Wood, stone and money never drop and the
    rest of the ledger is the same; every tile is as it was, or was
    unexplored and differs in the explored flag only; hostile agents are
    the same, and the boats are the same boats in the same order. *)
Theorem boat_tick_effects (s : Sim) :
  gained (stats s) (stats (boatTick s))
  ∧ (∀ i j t, lookupTile (grid s) i j = Some t →
       lookupTile (grid (boatTick s)) i j = Some t
       ∨ (TileData.explored t = false
          ∧ lookupTile (grid (boatTick s)) i j = Some (with_explored true t)))
  ∧ enemies (boatTick s) = enemies s
  ∧ gameStarted (boatTick s) = gameStarted s.
Proof.
  split; [apply boatTick_gained|]. split; [|].
  - intros i j t Ht.
    destruct (boatTick_tile s i j t Ht) as (t' & Ht' & [->| ->]); [by left|].
    destruct (TileData.explored t) eqn:He; [|by right].
    left. by rewrite Ht', with_explored_id.
  - unfold boatTick. destruct (boats s); [done|].
    destruct (filter _ _); [done|].
    by destruct (fold_left _ _ _) as [[[? ?] ?] ?].
Qed.

(** ** The economy ticker: harvest *)

Lemma levelTotal_cons (P : TileData.t → Prop) `{!∀ t, Decision (P t)}
    (t : TileData.t) (l : list TileData.t) :
  levelTotal P (t :: l)
  = (if decide (P t) then TileData.level t else 0) + levelTotal P l.
Proof.
  unfold levelTotal. rewrite filter_cons. by case_decide.
Qed.

Lemma sweepTile_harvest (acc : Daily) (t : TileData.t) :
  dailyWood (sweepTile acc t)
  = dailyWood acc + 5 * (if decide (isSawmill t) then TileData.level t else 0)
  ∧ dailyStone (sweepTile acc t)
    = dailyStone acc + 3 * (if decide (isQuarry t) then TileData.level t else 0)
  ∧ dailyFood (sweepTile acc t)
    = dailyFood acc + 15 * (if decide (isFarm t) then TileData.level t else 0).
Proof.
  unfold sweepTile. rewrite bool_decide_not.
  destruct (bool_decide_reflect (TileData.buildingType t = BNone)) as [Hb|Hb];
    cbn [negb];
    destruct (bool_decide_reflect (TileData.buildingType t = Farm)) as [Hf|Hf];
    destruct (bool_decide_reflect (TileData.buildingType t = Industrial)) as [Hi|Hi];
    destruct (bool_decide_reflect (TileData.resourceType t = Forest)) as [Hr|Hr];
    destruct (bool_decide_reflect (TileData.resourceType t = Stone)) as [Hs|Hs];
    destruct (bool_decide (TileData.buildingType t = Port));
    cbn [dailyWood dailyStone dailyFood];
    unfold isSawmill, isQuarry, isFarm;
    repeat case_bool_decide;
    repeat case_decide; repeat split; try lia;
    exfalso; (tauto || congruence).
Qed.

Lemma sweep_harvest (l : list TileData.t) (acc : Daily) :
  dailyWood (fold_left sweepTile l acc)
  = dailyWood acc + 5 * levelTotal isSawmill l
  ∧ dailyStone (fold_left sweepTile l acc)
    = dailyStone acc + 3 * levelTotal isQuarry l
  ∧ dailyFood (fold_left sweepTile l acc)
    = dailyFood acc + 15 * levelTotal isFarm l.
Proof.
  revert acc. induction l as [|t l IH]; intros acc.
  - unfold levelTotal. cbn. lia.
  - cbn [fold_left]. destruct (IH (sweepTile acc t)) as (Hw & Hs & Hf).
    destruct (sweepTile_harvest acc t) as (Hw' & Hs' & Hf').
    rewrite Hw, Hs, Hf, Hw', Hs', Hf', !levelTotal_cons. lia.
Qed.

(** X9.  The harvest of an economy tick.  One tick adds to the wood 5 times
    the levels of the Industrial tiles on forest and to the stone 3 times
    the levels of the Industrial tiles on stone; the food harvested is 15
    times the levels of the farms; the day advances by one; grid, hostile
    agents and boats are untouched. *)
Theorem economy_tick_harvest (r : EconomyRolls) (s : Sim) :
  let s' := economyTick r s in
  let tiles := concat (grid s) in
  CityStats.wood (stats s')
  = CityStats.wood (stats s) + 5 * levelTotal isSawmill tiles
  ∧ CityStats.stone (stats s')
    = CityStats.stone (stats s) + 3 * levelTotal isQuarry tiles
  ∧ dailyFood (sweep (grid s)) = 15 * levelTotal isFarm tiles
  ∧ CityStats.day (stats s') = CityStats.day (stats s) + 1
  ∧ grid s' = grid s ∧ enemies s' = enemies s ∧ boats s' = boats s.
Proof.
  cbv zeta. unfold economyTick, tickStats, sweep. cbn [stats grid enemies boats
    CityStats.wood CityStats.stone CityStats.day].
  destruct (sweep_harvest (concat (grid s)) noDaily) as (Hw & Hs & Hf).
  rewrite Hw, Hs, Hf. unfold noDaily. cbn [dailyWood dailyStone dailyFood].
  repeat split; lia.
Qed.

Lemma concat_lookupTile (g : Grid) (t : TileData.t) :
  t ∈ concat g → ∃ x y, lookupTile g x y = Some t.
Proof.
  intros Hin. apply list_elem_of_In, in_concat in Hin as (row & Hrow & Ht).
  apply list_elem_of_In, list_elem_of_lookup in Hrow as [j Hj].
  apply list_elem_of_In, list_elem_of_lookup in Ht as [i Hi].
  exists (Z.of_nat i), (Z.of_nat j). unfold lookupTile.
  rewrite (proj2 (Z.leb_le 0 _)), (proj2 (Z.leb_le 0 _)) by lia.
  cbn [andb]. rewrite !Nat2Z.id, Hj. cbn. done.
Qed.

Lemma lookupTile_concat (g : Grid) (x y : Z) (t : TileData.t) :
  lookupTile g x y = Some t → t ∈ concat g.
Proof.
  unfold lookupTile. destruct (_ && _); [|done].
  destruct (g !! Z.to_nat y) as [row|] eqn:Hrow; [|done]. cbn. intros Ht.
  apply list_elem_of_In, in_concat. exists row.
  split; apply list_elem_of_In; by eapply list_elem_of_lookup_2.
Qed.


Lemma Qnonneg_plus (a b : Q) : (0 <= a → 0 <= b → 0 <= a + b)%Q.
Proof.
  intros Ha Hb. pose proof (Qplus_le_compat 0 a 0 b Ha Hb) as H.
  by rewrite Qplus_0_l in H.
Qed.

Lemma Qnonneg_inject (z : Z) : 0 <= z → (0 <= inject_Z z)%Q.
Proof. intros Hz. change 0%Q with (inject_Z 0). by rewrite <- Zle_Qle. Qed.

Lemma sweepTile_income (acc : Daily) (t : TileData.t) :
  (0 <= dailyIncome acc)%Q → (0 <= TileData.landValue t)%Q →
  0 <= TileData.level t → TileData.buildingType t ≠ Defense →
  (0 <= dailyIncome (sweepTile acc t))%Q.
Proof.
  intros Hacc Hlv Hl Hd. unfold sweepTile.
  assert (Hgen : 0 <= incomeGen (BUILDINGS (TileData.buildingType t)))
    by (by destruct (TileData.buildingType t)).
  assert (Hinc : (0 <= dailyIncome acc
            + inject_Z (incomeGen (BUILDINGS (TileData.buildingType t))
                        * TileData.level t) * TileData.landValue t)%Q).
  { apply Qnonneg_plus; [done|]. apply Qmult_le_0_compat; [|done].
    apply Qnonneg_inject. lia. }
  assert (Hbonus : (0 <= inject_Z (5 * TileData.level t))%Q)
    by (apply Qnonneg_inject; lia).
  destruct (bool_decide (TileData.buildingType t ≠ BNone)); [|done].
  destruct (bool_decide (TileData.buildingType t = Industrial));
    destruct (bool_decide (TileData.resourceType t = Forest));
    destruct (bool_decide (TileData.resourceType t = Stone));
    destruct (bool_decide (TileData.buildingType t = Port));
    cbn [dailyIncome];
    first [ exact Hinc
          | apply Qnonneg_plus; [|exact Hbonus];
            first [exact Hinc | apply Qnonneg_plus; [exact Hinc | exact Hbonus]] ].
Qed.

Lemma sweep_income (l : list TileData.t) (acc : Daily) :
  (0 <= dailyIncome acc)%Q →
  (∀ t, t ∈ l → (0 <= TileData.landValue t)%Q ∧ 0 <= TileData.level t
                ∧ TileData.buildingType t ≠ Defense) →
  (0 <= dailyIncome (fold_left sweepTile l acc))%Q.
Proof.
  revert acc. induction l as [|t l IH]; intros acc Hacc Hl; [done|].
  cbn [fold_left]. apply IH.
  - destruct (Hl t ltac:(left)) as (? & ? & ?). by apply sweepTile_income.
  - intros t' Ht'. apply Hl. by right.
Qed.

(** X10.  Money under an economy tick without Defense.  On a grid with
    levels from 1 to 3 and land values from 0.5 to 2.5 that holds no
    Defense building, an economy tick never lowers the money. *)
Theorem money_never_drops_without_defense (r : EconomyRolls) (s : Sim) :
  levelsOk (grid s) → landValuesBounded (grid s) →
  (∀ i j t, lookupTile (grid s) i j = Some t →
            TileData.buildingType t ≠ Defense) →
  CityStats.money (stats s) <= CityStats.money (stats (economyTick r s)).
Proof.
  intros Hl Hb Hd. unfold economyTick, tickStats. cbn [stats CityStats.money].
  rewrite <- (Qfloor_Z (CityStats.money (stats s))) at 1.
  apply Qfloor_resp_le.
  eapply Qle_trans;
    [|apply Qplus_le_compat; [apply Qle_refl|]];
    [rewrite Qplus_0_r; apply Qle_refl|].
  unfold sweep. apply sweep_income; [done|].
  intros t Ht. apply concat_lookupTile in Ht as (x & y & Ht).
  destruct (Hl _ _ _ Ht) as [? _]. destruct (Hb _ _ _ Ht) as [Hlo _].
  split; [|split; [lia | by eapply Hd]].
  eapply Qle_trans; [|exact Hlo]. done.
Qed.

Lemma lookupTile_forallb (P : TileData.t → Prop) (Pb : TileData.t → bool)
    (g : Grid) :
  (∀ t, Pb t = true → P t) →
  forallb (forallb Pb) g = true →
  ∀ x y t, lookupTile g x y = Some t → P t.
Proof.
  intros HP Hall x y t Ht. apply HP.
  apply lookupTile_concat in Ht.
  apply list_elem_of_In, in_concat in Ht as (row & Hrow & Ht).
  rewrite forallb_forall in Hall. specialize (Hall _ Hrow).
  rewrite forallb_forall in Hall. by apply Hall.
Qed.

Lemma money_never_drops_without_defense_witness :
  CityStats.money (stats noDefenseSim)
  <= CityStats.money (stats (economyTick noRolls noDefenseSim)).
Proof.
  apply money_never_drops_without_defense.
  - apply levelsOk_check. reflexivity.
  - unfold landValuesBounded.
    apply (lookupTile_forallb
             (λ t, (0.5 <= TileData.landValue t <= 2.5)%Q)
             (λ t, Qle_bool 0.5 (TileData.landValue t)
                   && Qle_bool (TileData.landValue t) 2.5)).
    + intros t Ht. apply andb_true_iff in Ht as [H1 H2].
      split; by apply Qle_bool_iff.
    + reflexivity.
  - apply (lookupTile_forallb
             (λ t, TileData.buildingType t ≠ Defense)
             (λ t, bool_decide (TileData.buildingType t ≠ Defense))).
    + intros t Ht. by apply bool_decide_eq_true in Ht.
    + reflexivity.
Defined.

(** ** Invariants of the agents and of the news feed *)











(** ** Invariants of the ledger *)







(** ** Hostile agents without a target *)

Lemma findTarget_none (g : Grid) (e : Enemy.t) :
  (∀ x y t, lookupTile g x y = Some t →
     TileData.buildingType t = BNone ∨ TileData.buildingType t = Road) →
  findTarget g e = (-1, -1, 999%Q).
Proof.
  intros Hg. unfold findTarget. generalize (-1, -1, 999%Q). generalize coordinates.
  induction l as [|c l IH]; intros acc; [done|].
  cbn [fold_left]. rewrite <- (IH acc) at 2. f_equal.
  unfold targetStep. destruct c as [x y].
  destruct (lookupTile g x y) as [t|] eqn:Ht; [|done].
  destruct (Hg _ _ _ Ht) as [Hb|Hb]; rewrite Hb; done.
Qed.

Lemma mapEnemies_idle (g : Grid) (rolls : list Q) (es : list Enemy.t)
    (st : CityStats.t) :
  (∀ roll e, updateEnemy g roll e = (e, false)) →
  mapEnemies g rolls es st = (es, st).
Proof.
  intros Hidle. revert rolls st.
  induction es as [|e es IH]; intros rolls st; [done|].
  cbn [mapEnemies]. by rewrite Hidle, IH.
Qed.

(** X12.  Hostile agents without a target.  While the grid holds no
    building other than roads, the turn of an agent returns it as it is, so
    an enemy tick moves, damages and robs nobody: the ledger is unchanged
    and the agents after the tick are the living ones among those present
    (and the one spawned, if any). *)
Theorem hostiles_idle_without_targets (r : EnemyRolls) (s : Sim) :
  (∀ x y t, lookupTile (grid s) x y = Some t →
     TileData.buildingType t = BNone ∨ TileData.buildingType t = Road) →
  (∀ roll e, updateEnemy (grid s) roll e = (e, false))
  ∧ stats (enemyTick r s) = stats s
  ∧ enemies (enemyTick r s)
    = filter (λ e, 0 < Enemy.hp e) (enemiesAtTick r s).
Proof.
  intros Hg.
  assert (Hidle : ∀ roll e, updateEnemy (grid s) roll e = (e, false)).
  { intros roll e. unfold updateEnemy. by rewrite findTarget_none. }
  split; [exact Hidle|].
  unfold enemyTick. fold (enemiesAtTick r s).
  rewrite mapEnemies_idle by done. cbn [stats enemies]. split; [done|].
  apply list_filter_iff. intros e. unfold alive. apply Z.ltb_lt.
Qed.

Lemma hostiles_idle_without_targets_witness :
  stats (enemyTick raidRolls plainSim) = stats plainSim.
Proof.
  apply (hostiles_idle_without_targets raidRolls plainSim).
  apply (lookupTile_forallb
           (λ t, TileData.buildingType t = BNone ∨ TileData.buildingType t = Road)
           (λ t, bool_decide (TileData.buildingType t = BNone))).
  - intros t Ht. left. by apply bool_decide_eq_true in Ht.
  - reflexivity.
Defined.

(** ** Boats *)

Lemma boatTick_ids (s : Sim) :
  Boat.id <$> boats (boatTick s) = Boat.id <$> boats s.
Proof.
  unfold boatTick.
  destruct (boats s) as [|b0 bs0] eqn:Hboats; [by rewrite Hboats|].
  rewrite <- Hboats. clear Hboats.
  destruct (filter _ _) as [|first us'] eqn:Hus; [done|]. rewrite <- Hus. clear Hus.
  set (us := filter _ _).
  assert (Hfold : ∀ bs acc,
            Boat.id <$> (fold_left (updateBoat first us) bs acc).1.1.1
            = (Boat.id <$> acc.1.1.1) ++ (Boat.id <$> bs)).
  { induction bs as [|b bs IH]; intros acc; [by rewrite app_nil_r|].
    cbn [fold_left]. rewrite IH. destruct acc as [[[done g] st] feed].
    unfold updateBoat.
    destruct (_ && _); [destruct (revealArea _ _ g st) as [[ng st'] found]|];
      cbn [fst snd]; rewrite fmap_app, <- app_assoc; cbn;
      by destruct (needsTarget g b). }
  specialize (Hfold (boats s) ([], grid s, stats s, newsFeed s)).
  by destruct (fold_left _ _ _) as [[[? ?] ?] ?].
Qed.

(** X13.  Boats are never removed.  Along every command the identifiers of
    the boats stay, in order; the only command that adds one is an accepted
    click with the Port tool, which appends exactly one. *)
Theorem boats_never_removed (c : Command) (s : Sim) :
  ∃ extra,
    Boat.id <$> boats (execute s c) = (Boat.id <$> boats s) ++ extra
    ∧ (extra = [] ∨ ∃ now x y, c = TileClick now Port x y ∧ extra = [now]).
Proof.
  destruct c as [now tool x y|id| |r|r|]; cbn [execute].
  - destruct (handleTileClick_outcome now tool x y s)
      as (_ & _ & [(_ & _ & ->)|(cur & _ & _ & _ & _ &
            [(_ & _ & _ & _ & _ & _ & -> & _)|[(_ & _ & _ & _ & _ & -> & _)
            |(_ & _ & _ & _ & _ & _ & _ & -> & _)]])]);
      try (exists []; rewrite app_nil_r; by auto).
    case_bool_decide as Hp.
    + exists [now]. rewrite fmap_app. split; [done|]. right.
      exists now, x, y. by rewrite Hp.
    + exists []. rewrite app_nil_r. by auto.
  - exists []. rewrite app_nil_r. by auto.
  - exists []. rewrite app_nil_r. by auto.
  - exists []. rewrite app_nil_r. by destruct (gameStarted s); auto.
  - exists []. rewrite app_nil_r. split; [|by left].
    destruct (gameStarted s); [|done]. unfold enemyTick.
    by destruct (mapEnemies _ _ _ _).
  - exists []. rewrite app_nil_r. split; [|by left].
    destruct (gameStarted s); [|done]. apply boatTick_ids.
Qed.

Lemma filter_none {A} (P : A → Prop) `{!∀ a, Decision (P a)} (l : list A) :
  (∀ a, a ∈ l → ¬ P a) → filter P l = [].
Proof.
  induction l as [|a l IH]; intros Hl; [done|].
  rewrite filter_cons, decide_False by (apply Hl; left).
  apply IH. intros a' Ha'. apply Hl. by right.
Qed.

(** X14.  An idle boat tick.  With no boat, or with every tile of the grid
    explored, a boat tick returns the state unchanged: no boat moves or
    gets a target, nothing is revealed, nothing is granted. *)
Theorem boat_tick_idle (s : Sim) :
  boats s = []
  ∨ (∀ i j t, lookupTile (grid s) i j = Some t → TileData.explored t = true) →
  boatTick s = s.
Proof.
  intros [Hb|Hall]; unfold boatTick; [by rewrite Hb|].
  destruct (boats s) as [|b bs]; [done|].
  rewrite filter_none; [done|].
  intros [i j] _. unfold unexplored. cbn [fst snd].
  destruct (lookupTile (grid s) i j) as [tile|] eqn:Ht; [|done].
  by rewrite (Hall _ _ _ Ht).
Qed.

Lemma boat_tick_idle_witness :
  length (boats portSim) = 1%nat ∧ boatTick portSim = portSim.
Proof.
  split; [reflexivity|]. apply boat_tick_idle. right.
  apply (lookupTile_forallb (λ t, TileData.explored t = true) TileData.explored).
  - done.
  - reflexivity.
Defined.

(** ** Spawning *)

Lemma Qfloor_range (q : Q) (n : Z) :
  (0 <= q)%Q → (q < inject_Z n)%Q → 0 <= Qfloor q < n.
Proof.
  intros H0 Hn. split.
  - change 0 with (Qfloor 0). by apply Qfloor_resp_le.
  - rewrite Zlt_Qlt. eapply Qle_lt_trans; [apply Qfloor_le | done].
Qed.

(** X15.  Where and how a hostile agent is spawned.  For draws in [0, 1) the
    new agent stands on one of the four border lines of the grid, with the
    other coordinate in [0, 20); it has full hit points, 250 in the Future
    era and 50 otherwise, and no cooldown. *)
Theorem spawn_on_border (r : EnemyRolls) (st : CityStats.t) :
  (0 <= edgeRoll r)%Q → (edgeRoll r < 1)%Q →
  (0 <= posRoll r)%Q → (posRoll r < 1)%Q →
  let e := spawnEnemy r st in
  ((((Enemy.y e == 0)%Q ∨ (Enemy.y e == 19)%Q)
    ∧ (0 <= Enemy.x e)%Q ∧ (Enemy.x e < 20)%Q)
   ∨ (((Enemy.x e == 0)%Q ∨ (Enemy.x e == 19)%Q)
      ∧ (0 <= Enemy.y e)%Q ∧ (Enemy.y e < 20)%Q))
  ∧ Enemy.hp e = Enemy.maxHp e
  ∧ Enemy.hp e = (if decide (CityStats.era st = Future) then 250 else 50)
  ∧ Enemy.attackCooldown e = 0.
Proof.
  intros He0 He1 Hp0 Hp1. cbv zeta.
  assert (Hedge : 0 <= Qfloor (edgeRoll r * 4) < 4).
  { apply Qfloor_range.
    - apply Qmult_le_0_compat; done.
    - change (inject_Z 4) with (1 * 4)%Q. apply Qmult_lt_compat_r; done. }
  assert (Hpos : (0 <= posRoll r * inject_Z GRID_SIZE)%Q
                 ∧ (posRoll r * inject_Z GRID_SIZE < 20)%Q).
  { split; [apply Qmult_le_0_compat; done|].
    change 20%Q with (1 * inject_Z GRID_SIZE)%Q. apply Qmult_lt_compat_r; done. }
  destruct Hpos as [Hpos0 Hpos1].
  unfold spawnEnemy.
  destruct (Z.eqb_spec (Qfloor (edgeRoll r * 4)) 0);
    [|destruct (Z.eqb_spec (Qfloor (edgeRoll r * 4)) 1);
      [|destruct (Z.eqb_spec (Qfloor (edgeRoll r * 4)) 2);
        [|destruct (Z.eqb_spec (Qfloor (edgeRoll r * 4)) 3); [|lia]]]];
    cbn [Enemy.x Enemy.y Enemy.hp Enemy.maxHp Enemy.attackCooldown];
    (split; [|split; [done|split; [by case_bool_decide; case_decide|done]]]).
  - left. split; [by left | done].
  - left. split; [by right | done].
  - right. split; [by left | done].
  - right. split; [by right | done].
Qed.

Lemma spawn_on_border_witness :
  Enemy.hp (spawnEnemy (mkEnemyRolls 0%Q 0.6%Q 0.5%Q 0%Q "e" []) INITIAL_STATS) = 50.
Proof.
  destruct (spawn_on_border (mkEnemyRolls 0%Q 0.6%Q 0.5%Q 0%Q "e" [])
              INITIAL_STATS ltac:(done) ltac:(done) ltac:(done) ltac:(done))
    as (_ & _ & H & _).
  exact H.
Defined.

(** ** Eras along a session *)

Lemma nextEra_rank (prev : CityStats.t) (p : Z) :
  eraRank (CityStats.era prev) <= eraRank (nextEra prev p)
    <= eraRank (CityStats.era prev) + 1.
Proof.
  unfold nextEra. destruct (CityStats.era prev) eqn:He; simpl;
    repeat match goal with
           | |- context [?a <=? ?b] => destruct (Z.leb_spec a b); simpl
           end; lia.
Qed.

Lemma execute_era (c : Command) (s : Sim) :
  eraRank (CityStats.era (stats s))
  <= eraRank (CityStats.era (stats (execute s c)))
  <= eraRank (CityStats.era (stats s)) + (if isEconomyTick c then 1 else 0).
Proof.
  destruct c as [now tool x y|id| |r|r|]; cbn [execute isEconomyTick].
  - destruct (handleTileClick_outcome now tool x y s)
      as (_ & _ & [(_ & -> & _)|(cur & _ & _ & _ & _ &
            [(_ & _ & _ & _ & _ & -> & _)|[(_ & _ & _ & _ & -> & _)
            |(_ & _ & _ & _ & _ & _ & -> & _)]])]);
      try case_bool_decide; cbn; lia.
  - cbn. lia.
  - cbn. lia.
  - destruct (gameStarted s); [|lia].
    unfold economyTick, tickStats. cbn [stats CityStats.era].
    apply nextEra_rank.
  - destruct (gameStarted s); [|lia].
    assert (Haux : robbed (Z.of_nat (length (enemiesAtTick r s))) (stats s)
                     (stats (enemyTick r s))).
    { unfold enemyTick. fold (enemiesAtTick r s).
      pose proof (mapEnemies_robbed (grid s) (stealRolls r) (enemiesAtTick r s)
                    (stats s)) as H.
      by destruct (mapEnemies _ _ _ _) as [es st]. }
    destruct Haux as (_ & _ & _ & _ & _ & _ & -> & _). lia.
  - destruct (gameStarted s); [|lia].
    destruct (boatTick_gained s) as (_ & _ & _ & _ & _ & _ & -> & _). lia.
Qed.

(** X16.  Eras along a session.  Over any sequence of commands the era never
    goes back, and it is at most as many steps ahead as the sequence has
    economy ticks; in particular the Future era is kept for ever. *)
Theorem era_along_session (cs : list Command) (s : Sim) :
  eraRank (CityStats.era (stats s))
  <= eraRank (CityStats.era (stats (run cs s)))
  <= eraRank (CityStats.era (stats s))
     + Z.of_nat (length (filter (λ c, isEconomyTick c = true) cs))
  ∧ (CityStats.era (stats s) = Future →
     CityStats.era (stats (run cs s)) = Future).
Proof.
  assert (H : eraRank (CityStats.era (stats s))
              <= eraRank (CityStats.era (stats (run cs s)))
              <= eraRank (CityStats.era (stats s))
                 + Z.of_nat (length (filter (λ c, isEconomyTick c = true) cs))).
  { unfold run. revert s. induction cs as [|c cs IH]; intros s.
    - cbn. lia.
    - cbn [fold_left]. specialize (IH (execute s c)).
      pose proof (execute_era c s) as Hc. rewrite filter_cons.
      destruct (isEconomyTick c).
      + rewrite decide_True by done. cbn [length]. lia.
      + rewrite decide_False by done. lia. }
  split; [exact H|]. intros HF. rewrite HF in H.
  destruct (CityStats.era (stats (run cs s))); cbn in H; (done || lia).
Qed.

(** ** [createInitialGrid] *)

Lemma lookupTile_createInitialGrid (d : TerrainDraws) (x y : Z) :
  lookupTile (createInitialGrid d) x y
  = if inBounds x y then Some (createTile d x y) else None.
Proof.
  unfold lookupTile, createInitialGrid, inBounds, GRID_SIZE.
  destruct (Z.leb_spec 0 x), (Z.leb_spec 0 y); cbn [andb]; try done;
    [|by destruct (x <? 20)].
  rewrite list_lookup_fmap.
  destruct (Z.ltb_spec y 20).
  - rewrite lookup_seqZ_lt by lia. cbn. rewrite list_lookup_fmap.
    destruct (Z.ltb_spec x 20).
    + rewrite lookup_seqZ_lt by lia. cbn. do 2 f_equal; lia.
    + rewrite lookup_seqZ_ge by lia. done.
  - rewrite lookup_seqZ_ge by lia. cbn. by rewrite andb_false_r.
Qed.

(** X17.  The initial grid.  Whatever the noise and the random draws,
    [createInitialGrid] yields a 20 by 20 grid with exactly one tile per
    position, which stores that position, has no building, level 1 and
    land value 1.0; a tile is water exactly when it is not land; it is
    explored exactly when it is less than 6 away from the centre
    [(10, 10)]; and the cells around [(3, 3)], [(16, 15)] and [(14, 4)]
    are land in any case. *)
Theorem createInitialGrid_spec (d : TerrainDraws) :
  initialGrid (createInitialGrid d)
  ∧ (∀ x y, lookupTile (createInitialGrid d) x y
            = if inBounds x y then Some (createTile d x y) else None)
  ∧ (∀ x y t, lookupTile (createInitialGrid d) x y = Some t →
       TileData.x t = x ∧ TileData.y t = y
       ∧ (TileData.resourceType t = Water ↔ isLand d x y = false)
       ∧ (TileData.explored t = true
          ↔ (x - 10) * (x - 10) + (y - 10) * (y - 10) < 36))
  ∧ isLand d 3 3 = true ∧ isLand d 16 15 = true ∧ isLand d 14 4 = true.
Proof.
  split; [|split; [apply lookupTile_createInitialGrid|split]].
  - unfold initialGrid, wf_grid, createInitialGrid.
    split; [split|].
    + by rewrite length_fmap, length_seqZ.
    + apply Forall_fmap, Forall_forall. intros y _.
      unfold compose. by rewrite length_fmap, length_seqZ.
    + apply Forall_fmap, Forall_forall. intros y _.
      apply Forall_fmap, Forall_forall. intros x _. by repeat split.
  - intros x y t. rewrite lookupTile_createInitialGrid.
    destruct (inBounds x y); [|done]. intros [= <-].
    unfold createTile. cbn [TileData.x TileData.y TileData.resourceType
                            TileData.explored].
    split; [done|]. split; [done|]. split.
    + destruct (isLand d x y); cbn [negb]; [|done].
      split; [|done].
      by destruct (Qlt_bool 0.90 _); [|destruct (Qlt_bool 0.75 _)].
    + change (GRID_SIZE / 2) with 10. apply Z.ltb_lt.
  - unfold isLand. by repeat split; destruct (mainIsland d _ _).
Qed.

(** ** The goal check *)


(** ** Clicks on a hostile agent *)

Lemma handleEnemyClick_clicked (id : string) (n : nat) (s : Sim) :
  Forall (λ e, 0 < Enemy.hp e) (enemies s) →
  enemies (handleEnemyClick id
             (mkSim (gameStarted s) (grid s) (stats s)
                (omap (clicked id n) (enemies s)) (boats s) (newsFeed s)))
  = omap (clicked id (S n)) (enemies s).
Proof.
  unfold handleEnemyClick. cbn [enemies].
  induction 1 as [|e l He _ IH]; [done|].
  cbn [omap list_omap].
  set (tl1 := omap (clicked id n) l) in *.
  set (tl2 := omap (clicked id (S n)) l) in *.
  unfold clicked.
  destruct (bool_decide_reflect (Enemy.id e = id)) as [Hid|Hid].
  - destruct (Z.ltb_spec (20 * Z.of_nat n) (Enemy.hp e)) as [Hn|Hn].
    + cbn [map]. unfold with_hp. cbn [Enemy.id Enemy.x Enemy.y Enemy.hp
                                      Enemy.maxHp Enemy.attackCooldown].
      rewrite bool_decide_eq_true_2 by done. rewrite filter_cons.
      destruct (Z.ltb_spec (20 * Z.of_nat (S n)) (Enemy.hp e)) as [Hs|Hs].
      * rewrite decide_True
          by (unfold alive; cbn [Enemy.hp]; apply Z.ltb_lt; lia).
        rewrite IH. do 2 f_equal. lia.
      * rewrite decide_False
          by (unfold alive; cbn [Enemy.hp]; intros Hc; apply Z.ltb_lt in Hc; lia).
        apply IH.
    + destruct (Z.ltb_spec (20 * Z.of_nat (S n)) (Enemy.hp e)); [lia|].
      apply IH.
  - cbn [map]. rewrite bool_decide_eq_false_2 by done. rewrite filter_cons.
    rewrite decide_True by (by apply Z.ltb_lt).
    by rewrite IH.
Qed.

Lemma clicked_0 (id : string) (l : list Enemy.t) :
  Forall (λ e, 0 < Enemy.hp e) l → omap (clicked id 0) l = l.
Proof.
  induction 1 as [|e l He _ IH]; [done|].
  cbn [omap list_omap]. rewrite IH. unfold clicked.
  destruct (bool_decide _); [|done].
  destruct (Z.ltb_spec (20 * Z.of_nat 0) (Enemy.hp e)); [|lia].
  destruct e. unfold with_hp. cbn. do 2 f_equal. lia.
Qed.

(** X19.  Repeated clicks on a hostile agent.  When every agent is alive,
    [n] clicks on an identifier take [20 * n] hit points from every agent
    with that identifier, remove those that had at most [20 * n], and
    leave all other agents, their order, the grid, the ledger, the boats
    and the news feed as they were. *)
Theorem enemy_clicks_compose (id : string) (n : nat) (s : Sim) :
  Forall (λ e, 0 < Enemy.hp e) (enemies s) →
  Nat.iter n (handleEnemyClick id) s
  = mkSim (gameStarted s) (grid s) (stats s)
      (omap (clicked id n) (enemies s)) (boats s) (newsFeed s).
Proof.
  intros Hs. induction n as [|n IH].
  - cbn [Nat.iter nat_rect]. rewrite clicked_0 by done. by destruct s.
  - change (Nat.iter (S n) (handleEnemyClick id) s)
      with (handleEnemyClick id (Nat.iter n (handleEnemyClick id) s)).
    rewrite IH.
    pose proof (handleEnemyClick_clicked id n s Hs) as Hc.
    unfold handleEnemyClick in *. cbn [enemies gameStarted grid stats boats
                                       newsFeed] in *.
    by rewrite Hc.
Qed.

Lemma enemy_clicks_compose_witness :
  enemies (Nat.iter 3 (handleEnemyClick "e1")
             (mkSim true plainGrid INITIAL_STATS
                [Enemy.mk "e1" 0%Q 0%Q 50 50 0; Enemy.mk "e2" 0%Q 0%Q 50 50 0]
                [] []))
  = [Enemy.mk "e2" 0%Q 0%Q 50 50 0].
Proof.
  rewrite (enemy_clicks_compose "e1" 3
             (mkSim true plainGrid INITIAL_STATS
                [Enemy.mk "e1" 0%Q 0%Q 50 50 0; Enemy.mk "e2" 0%Q 0%Q 50 50 0]
                [] [])).
  - reflexivity.
  - repeat constructor.
Defined.
